(** * ksql-python: the request-execution engine of [ksql/api.py]

    A shallow embedding of [BaseAPI] and [SimplifiedAPI] (statement
    validation, buffered and streaming dispatch, interpretation of the
    engine's reply, the retry decorator) together with the part of the
    Python runtime those methods lean on: values decoded from JSON,
    exceptions and their class hierarchy, [str()] / [repr()], the [json]
    module and the byte codecs.

    Conventions.
    - Python text ([str]) is carried by a Rocq [string] holding its UTF-8
      bytes.  Emptiness, the last character being [';'], concatenation,
      equality and the search for an ASCII needle all agree with Python on
      that representation.
    - Python [bytes] are [list byte]: the two types stay apart, as in
      Python 3.
    - A call that may raise returns a [result]; a call that also touches the
      outside world (network, clock) is a function of the world state.
    - The methods reach the libraries through the runtime they run in
      (the class [Env]): the request, the clock, and the two calls of the
      streaming decoder, [bytes.decode] and [json.loads].  What [json()]
      makes of a response is part of the response.  The modules [Json]
      and [Codec] give [json.dumps], which [_request] calls, and the
      reader and the codecs of the scripted runtime in which the examples
      run. *)

From Stdlib Require Import ZArith List String Ascii Bool Lia.
From Stdlib.Strings Require Import Byte.
From Stdlib Require Import DecimalString.
From Stdlib.Floats Require Import SpecFloat.
Import ListNotations.

Set Warnings "-register-all".

Local Open Scope string_scope.
Local Open Scope Z_scope.

(* ================================================================= *)
(** ** Text *)

Module Text.

Definition chr (n : N) : ascii := ascii_of_N n.
Definition ord (c : ascii) : N := N_of_ascii c.

Definition dquote : ascii := "034"%char.
Definition squote : ascii := "039"%char.
Definition backslash : ascii := "092"%char.
Definition newline : ascii := "010"%char.
Definition tab : ascii := "009"%char.
Definition cr : ascii := "013"%char.

Definition str1 (c : ascii) : string := String c EmptyString.

(** [s[-1]]: the last character of a non-empty text. *)
Fixpoint last_char (s : string) : option ascii :=
  match s with
  | EmptyString => None
  | String c EmptyString => Some c
  | String _ rest => last_char rest
  end.

(** [hay.startswith(needle)]. *)
Fixpoint startswith (hay needle : string) : bool :=
  match needle, hay with
  | EmptyString, _ => true
  | String a needle', String b hay' => Ascii.eqb a b && startswith hay' needle'
  | String _ _, EmptyString => false
  end.

(** [needle in hay]. *)
Fixpoint contains (needle hay : string) : bool :=
  startswith hay needle ||
  match hay with
  | EmptyString => false
  | String _ rest => contains needle rest
  end.

(** [sep.join(parts)]. *)
Fixpoint join (sep : string) (parts : list string) : string :=
  match parts with
  | [] => ""
  | [p] => p
  | p :: rest => p ++ sep ++ join sep rest
  end.

(** Decimal text of an integer, as [str(n)] prints it. *)
Definition str_of_Z (n : Z) : string := NilZero.string_of_int (Z.to_int n).

Definition hex_digit (n : N) : ascii :=
  if (n <? 10)%N then chr (48 + n) else chr (87 + n).

(** [n] in lower-case hexadecimal, padded with zeros to [width] digits. *)
Fixpoint hex (width : nat) (n : N) : string :=
  match width with
  | O => ""
  | S w => hex w (n / 16) ++ str1 (hex_digit (n mod 16))
  end.

(** UTF-8 bytes of a code point.  A lone surrogate gets the three-byte
    form, so that distinct Python texts stay distinct. *)
Definition utf8_encode (cp : N) : string :=
  (if cp <? 128 then str1 (chr cp)
   else if cp <? 2048 then
     String (chr (192 + cp / 64)) (str1 (chr (128 + cp mod 64)))
   else if cp <? 65536 then
     String (chr (224 + cp / 4096))
       (String (chr (128 + (cp / 64) mod 64)) (str1 (chr (128 + cp mod 64))))
   else
     String (chr (240 + cp / 262144))
       (String (chr (128 + (cp / 4096) mod 64))
          (String (chr (128 + (cp / 64) mod 64))
             (str1 (chr (128 + cp mod 64))))))%N.

Definition is_continuation (c : ascii) : bool :=
  ((128 <=? ord c) && (ord c <? 192))%N.

(** The code points of a text held as UTF-8.  Continuation bytes are folded
    into the lead byte before them. *)
Fixpoint codepoints_from (acc : option N) (s : string) : list N :=
  match s with
  | EmptyString => match acc with Some cp => [cp] | None => [] end
  | String c rest =>
      let n := ord c in
      if is_continuation c then
        match acc with
        | Some cp => codepoints_from (Some (cp * 64 + (n - 128))%N) rest
        | None => codepoints_from (Some n) rest
        end
      else
        let lead :=
          (if n <? 128 then n
           else if n <? 224 then n - 192
           else if n <? 240 then n - 224
           else n - 240)%N in
        match acc with
        | Some cp => cp :: codepoints_from (Some lead) rest
        | None => codepoints_from (Some lead) rest
        end
  end.

Definition codepoints (s : string) : list N := codepoints_from None s.

End Text.

Import Text.

(* ================================================================= *)
(** ** Python floats

    A Python [float] is an IEEE-754 binary64 number, here a [spec_float]
    of precision 53.  Two conversions are needed: from a decimal literal
    (what [float("1.5e3")] computes, correctly rounded) and to text (what
    [repr] prints: the shortest decimal that reads back as the same
    number). *)

Module Float.

Definition prec : Z := 53.
Definition emax : Z := 1024.

(** The double nearest to [num / den], for [num >= 0] and [den > 0]. *)
Definition of_ratio (neg : bool) (num den : Z) : spec_float :=
  if num =? 0 then S754_zero neg
  else
    let s := Z.max 0 (55 + Z.log2 den - Z.log2 num) in
    let scaled := Z.shiftl num s in
    let q := scaled / den in
    let r := scaled mod den in
    let loc := if r =? 0 then loc_Exact else loc_Inexact (2 * r ?= den) in
    binary_round_aux prec emax neg q (- s) loc.

(** The double nearest to [digits * 10 ^ exp10], where [digits >= 0] is
    written with [ndigits] decimal digits.  The two guards only spare the
    computation of enormous powers: beyond them the result is an infinity
    or a zero whatever the digits are. *)
Definition of_decimal (neg : bool) (digits : Z) (ndigits : Z) (exp10 : Z)
  : spec_float :=
  if digits =? 0 then S754_zero neg
  else if 400 <? exp10 then S754_infinity neg
  else if exp10 + ndigits <? -400 then S754_zero neg
  else if 0 <=? exp10 then of_ratio neg (digits * 10 ^ exp10) 1
  else of_ratio neg digits (10 ^ (- exp10)).

Definition ndigits_of (n : Z) : Z := Z.of_nat (String.length (str_of_Z n)).

Definition eqb (x y : spec_float) : bool :=
  match x, y with
  | S754_zero a, S754_zero b => Bool.eqb a b
  | S754_infinity a, S754_infinity b => Bool.eqb a b
  | S754_nan, S754_nan => true
  | S754_finite a m e, S754_finite b m' e' =>
      Bool.eqb a b && Pos.eqb m m' && (e =? e')
  | _, _ => false
  end.

(** [10 ^ k <= num / den]. *)
Definition pow10_le (k num den : Z) : bool :=
  if 0 <=? k then 10 ^ k * den <=? num else den <=? num * 10 ^ (- k).

Fixpoint adjust_log10 (fuel : nat) (k num den : Z) : Z :=
  match fuel with
  | O => k
  | S fuel' =>
      if pow10_le (k + 1) num den then adjust_log10 fuel' (k + 1) num den
      else k
  end.

(** [floor (log10 (num / den))]: a low estimate from the bit lengths, then
    corrected upwards. *)
Definition floor_log10 (num den : Z) : Z :=
  let est := ((Z.log2 num - Z.log2 den - 1) * 30102) / 100000 - 1 in
  adjust_log10 8 est num den.

Fixpoint strip_zeros (fuel : nat) (digits k : Z) : Z * Z :=
  match fuel with
  | O => (digits, k)
  | S fuel' =>
      if (digits mod 10 =? 0) && negb (digits =? 0)
      then strip_zeros fuel' (digits / 10) (k + 1)
      else (digits, k)
  end.

(** The shortest [digits * 10 ^ k] that reads back as [x = num / den]:
    for n = 1, 2, ... digits, the two n-digit decimals around [x] are
    tried, the nearer one first. *)
Fixpoint shortest (steps : nat) (n : Z) (x : spec_float) (num den d10 : Z)
  : Z * Z :=
  let k := d10 - n + 1 in
  let top := if 0 <=? k then num else num * 10 ^ (- k) in
  let bot := if 0 <=? k then den * 10 ^ k else den in
  let lo := top / bot in
  let r := top mod bot in
  let hi := lo + 1 in
  let back c := eqb (of_decimal false c (ndigits_of c) k) x in
  let lo_first :=
    match 2 * r ?= bot with
    | Lt => true
    | Eq => Z.even lo
    | Gt => false
    end in
  let first := if lo_first then lo else hi in
  let second := if lo_first then hi else lo in
  match steps with
  | O => (first, k)
  | S steps' =>
      if back first then (first, k)
      else if back second then (second, k)
      else shortest steps' (n + 1) x num den d10
  end.

Definition zeros (n : Z) : string :=
  string_of_list_ascii (repeat "0"%char (Z.to_nat n)).

Definition pad2 (s : string) : string :=
  if (String.length s <? 2)%nat then "0" ++ s else s.

(** [repr] of a finite positive double given as [m * 2 ^ e]. *)
Definition repr_finite (m : positive) (e : Z) : string :=
  let num := if 0 <=? e then Zpos m * 2 ^ e else Zpos m in
  let den := if 0 <=? e then 1 else 2 ^ (- e) in
  let x := of_ratio false num den in
  let '(d, k) := shortest 16 1 x num den (floor_log10 num den) in
  let '(d, k) := strip_zeros 20 d k in
  let ds := str_of_Z d in
  let n := Z.of_nat (String.length ds) in
  let decpt := n + k in
  if (decpt <=? -4) || (16 <? decpt) then
    let mant :=
      match ds with
      | String c EmptyString => str1 c
      | String c rest => String c ("." ++ rest)
      | EmptyString => ""
      end in
    let ex := decpt - 1 in
    mant ++ "e" ++ (if ex <? 0 then "-" else "+") ++ pad2 (str_of_Z (Z.abs ex))
  else if decpt <=? 0 then "0." ++ zeros (- decpt) ++ ds
  else if n <=? decpt then ds ++ zeros (decpt - n) ++ ".0"
  else substring 0 (Z.to_nat decpt) ds ++ "."
       ++ substring (Z.to_nat decpt) (Z.to_nat (n - decpt)) ds.

(** [repr(x)] for a float. *)
Definition repr (x : spec_float) : string :=
  match x with
  | S754_zero s => if s then "-0.0" else "0.0"
  | S754_infinity s => if s then "-inf" else "inf"
  | S754_nan => "nan"
  | S754_finite s m e => (if s then "-" else "") ++ repr_finite m e
  end.

End Float.

(* ================================================================= *)
(** ** Python values and exceptions *)

Module Py.

(** The values [json.loads] can produce.  A dictionary keeps its entries in
    insertion order, which is what [str()] prints; its keys are texts.  An
    integer is one that [json.loads] accepts, of at most 4300 digits, which
    [str()] and [json.dumps] print in full. *)
Inductive value : Type :=
| VNone
| VBool (b : bool)
| VInt (n : Z)
| VFloat (x : spec_float)
| VStr (s : string)
| VList (items : list value)
| VDict (entries : list (string * value)).

(** Exception classes that can surface from the methods of [api.py]. *)
Inductive exn_class : Type :=
| Exception
| StopIteration
| RuntimeError | RecursionError
| ValueError | JSONDecodeError | UnicodeDecodeError
| LookupError | KeyError | IndexError
| TypeError
| RequestException | ConnectionError | Timeout | ConnectTimeout | ReadTimeout
| CreateError | InvalidQueryError.

Definition exn_class_eqb (a b : exn_class) : bool :=
  match a, b with
  | Exception, Exception | StopIteration, StopIteration
  | RuntimeError, RuntimeError
  | RecursionError, RecursionError | ValueError, ValueError
  | JSONDecodeError, JSONDecodeError | UnicodeDecodeError, UnicodeDecodeError
  | LookupError, LookupError | KeyError, KeyError | IndexError, IndexError
  | TypeError, TypeError | RequestException, RequestException
  | ConnectionError, ConnectionError | Timeout, Timeout
  | ConnectTimeout, ConnectTimeout | ReadTimeout, ReadTimeout
  | CreateError, CreateError | InvalidQueryError, InvalidQueryError => true
  | _, _ => false
  end.

(** Modelled from the spec: [ksql/errors.py] is not among the sources at
    hand; its classes [CreateError] and [InvalidQueryError] (the spec's
    [InvalidStatementError]) are taken as direct subclasses of
    [Exception].  The other classes have the direct bases they have in
    Python and in [requests] ([OSError], which no handler of [api.py]
    names, is skipped over); [ConnectTimeout] has two. *)
Definition bases (c : exn_class) : list exn_class :=
  match c with
  | Exception => []
  | StopIteration | RuntimeError => [Exception]
  | RecursionError => [RuntimeError]
  | ValueError | LookupError | TypeError | RequestException => [Exception]
  | JSONDecodeError | UnicodeDecodeError => [ValueError]
  | KeyError | IndexError => [LookupError]
  | ConnectionError | Timeout => [RequestException]
  | ConnectTimeout => [ConnectionError; Timeout]
  | ReadTimeout => [Timeout]
  | CreateError | InvalidQueryError => [Exception]
  end.

(** [issubclass(c, d)]; the hierarchy is four levels deep. *)
Fixpoint issubclass_upto (depth : nat) (c d : exn_class) : bool :=
  exn_class_eqb c d ||
  match depth with
  | O => false
  | S depth' => existsb (fun b => issubclass_upto depth' b d) (bases c)
  end.

Definition issubclass : exn_class -> exn_class -> bool := issubclass_upto 4.

(** A raised exception: its class and the arguments it was built with. *)
Record exn : Type := mk_exn { exn_cls : exn_class; exn_args : list value }.

(** [isinstance(e, classes)] for a tuple of classes: the test that an
    [except (classes) as e] clause performs. *)
Definition isinstance (e : exn) (classes : list exn_class) : bool :=
  existsb (issubclass (exn_cls e)) classes.

Inductive result (A : Type) : Type :=
| Ok (a : A)
| Raise (e : exn).
Arguments Ok {A} a.
Arguments Raise {A} e.

Definition bind {A B : Type} (r : result A) (k : A -> result B) : result B :=
  match r with
  | Ok a => k a
  | Raise e => Raise e
  end.

Definition raise {A : Type} (c : exn_class) (msg : string) : result A :=
  Raise (mk_exn c [VStr msg]).

(** The keyword arguments of a call [callee(k1=v1, ..., **kwargs)], in
    which the keywords [named] are written out.  When [kwargs] holds one
    of them again, the call raises [TypeError] before [callee] is entered
    (the message is the one of CPython 3.11, which names the callee by its
    module and qualified name, and the first such key of [kwargs]). *)
Definition keywords (callee : string) (named kwargs : list (string * value))
  : result (list (string * value)) :=
  match find (fun '(k, _) => existsb (String.eqb k) (map fst named)) kwargs with
  | Some (k, _) =>
      raise TypeError
        (callee ++ "() got multiple values for keyword argument '" ++ k ++ "'")
  | None => Ok (named ++ kwargs)%list
  end.

(** An exception that leaves the body of a generator: a [StopIteration]
    raised inside the body reaches the caller as a [RuntimeError]. *)
Definition leaving_generator (e : exn) : exn :=
  if isinstance e [StopIteration]
  then mk_exn RuntimeError [VStr "generator raised StopIteration"]
  else e.

(* ----------------------------------------------------------------- *)
(** *** [repr()] and [str()] *)

(** The quote [repr] wraps a text in: a double quote only when the text
    has a single quote and no double quote. *)
Definition repr_quote (s : string) : ascii :=
  if contains (str1 squote) s && negb (contains (str1 dquote) s)
  then dquote else squote.

(** One ASCII character inside [repr] of a text ([bytes], the same). *)
Definition repr_ascii (quote c : ascii) : string :=
  if Ascii.eqb c quote || Ascii.eqb c backslash then String backslash (str1 c)
  else if Ascii.eqb c tab then String backslash "t"
  else if Ascii.eqb c newline then String backslash "n"
  else if Ascii.eqb c cr then String backslash "r"
  else if (ord c <? 32)%N || (ord c =? 127)%N
       then String backslash ("x" ++ hex 2 (ord c))
  else str1 c.

(** The code points from U+0080 on for which [str.isprintable()] is
    false, as ranges with both ends included: the table of CPython 3.11,
    which follows Unicode 14.0 (categories Cc, Cf, Cs, Co, Cn, Zl, Zp and
    Zs). *)
Definition unprintable_ranges : list (N * N) :=
  (
  [(128, 160); (173, 173); (888, 889); (896, 899); (907, 907); (909, 909);
   (930, 930); (1328, 1328); (1367, 1368); (1419, 1420); (1424, 1424);
   (1480, 1487); (1515, 1518); (1525, 1541); (1564, 1564); (1757, 1757);
   (1806, 1807); (1867, 1868); (1970, 1983); (2043, 2044); (2094, 2095);
   (2111, 2111); (2140, 2141); (2143, 2143); (2155, 2159); (2191, 2199);
   (2274, 2274); (2436, 2436); (2445, 2446); (2449, 2450); (2473, 2473);
   (2481, 2481); (2483, 2485); (2490, 2491); (2501, 2502); (2505, 2506);
   (2511, 2518); (2520, 2523); (2526, 2526); (2532, 2533); (2559, 2560);
   (2564, 2564); (2571, 2574); (2577, 2578); (2601, 2601); (2609, 2609);
   (2612, 2612); (2615, 2615); (2618, 2619); (2621, 2621); (2627, 2630);
   (2633, 2634); (2638, 2640); (2642, 2648); (2653, 2653); (2655, 2661);
   (2679, 2688); (2692, 2692); (2702, 2702); (2706, 2706); (2729, 2729);
   (2737, 2737); (2740, 2740); (2746, 2747); (2758, 2758); (2762, 2762);
   (2766, 2767); (2769, 2783); (2788, 2789); (2802, 2808); (2816, 2816);
   (2820, 2820); (2829, 2830); (2833, 2834); (2857, 2857); (2865, 2865);
   (2868, 2868); (2874, 2875); (2885, 2886); (2889, 2890); (2894, 2900);
   (2904, 2907); (2910, 2910); (2916, 2917); (2936, 2945); (2948, 2948);
   (2955, 2957); (2961, 2961); (2966, 2968); (2971, 2971); (2973, 2973);
   (2976, 2978); (2981, 2983); (2987, 2989); (3002, 3005); (3011, 3013);
   (3017, 3017); (3022, 3023); (3025, 3030); (3032, 3045); (3067, 3071);
   (3085, 3085); (3089, 3089); (3113, 3113); (3130, 3131); (3141, 3141);
   (3145, 3145); (3150, 3156); (3159, 3159); (3163, 3164); (3166, 3167);
   (3172, 3173); (3184, 3190); (3213, 3213); (3217, 3217); (3241, 3241);
   (3252, 3252); (3258, 3259); (3269, 3269); (3273, 3273); (3278, 3284);
   (3287, 3292); (3295, 3295); (3300, 3301); (3312, 3312); (3315, 3327);
   (3341, 3341); (3345, 3345); (3397, 3397); (3401, 3401); (3408, 3411);
   (3428, 3429); (3456, 3456); (3460, 3460); (3479, 3481); (3506, 3506);
   (3516, 3516); (3518, 3519); (3527, 3529); (3531, 3534); (3541, 3541);
   (3543, 3543); (3552, 3557); (3568, 3569); (3573, 3584); (3643, 3646);
   (3676, 3712); (3715, 3715); (3717, 3717); (3723, 3723); (3748, 3748);
   (3750, 3750); (3774, 3775); (3781, 3781); (3783, 3783); (3790, 3791);
   (3802, 3803); (3808, 3839); (3912, 3912); (3949, 3952); (3992, 3992);
   (4029, 4029); (4045, 4045); (4059, 4095); (4294, 4294); (4296, 4300);
   (4302, 4303); (4681, 4681); (4686, 4687); (4695, 4695); (4697, 4697);
   (4702, 4703); (4745, 4745); (4750, 4751); (4785, 4785); (4790, 4791);
   (4799, 4799); (4801, 4801); (4806, 4807); (4823, 4823); (4881, 4881);
   (4886, 4887); (4955, 4956); (4989, 4991); (5018, 5023); (5110, 5111);
   (5118, 5119); (5760, 5760); (5789, 5791); (5881, 5887); (5910, 5918);
   (5943, 5951); (5972, 5983); (5997, 5997); (6001, 6001); (6004, 6015);
   (6110, 6111); (6122, 6127); (6138, 6143); (6158, 6158); (6170, 6175);
   (6265, 6271); (6315, 6319); (6390, 6399); (6431, 6431); (6444, 6447);
   (6460, 6463); (6465, 6467); (6510, 6511); (6517, 6527); (6572, 6575);
   (6602, 6607); (6619, 6621); (6684, 6685); (6751, 6751); (6781, 6782);
   (6794, 6799); (6810, 6815); (6830, 6831); (6863, 6911); (6989, 6991);
   (7039, 7039); (7156, 7163); (7224, 7226); (7242, 7244); (7305, 7311);
   (7355, 7356); (7368, 7375); (7419, 7423); (7958, 7959); (7966, 7967);
   (8006, 8007); (8014, 8015); (8024, 8024); (8026, 8026); (8028, 8028);
   (8030, 8030); (8062, 8063); (8117, 8117); (8133, 8133); (8148, 8149);
   (8156, 8156); (8176, 8177); (8181, 8181); (8191, 8207); (8232, 8239);
   (8287, 8303); (8306, 8307); (8335, 8335); (8349, 8351); (8385, 8399);
   (8433, 8447); (8588, 8591); (9255, 9279); (9291, 9311); (11124, 11125);
   (11158, 11158); (11508, 11512); (11558, 11558); (11560, 11564);
   (11566, 11567); (11624, 11630); (11633, 11646); (11671, 11679);
   (11687, 11687); (11695, 11695); (11703, 11703); (11711, 11711);
   (11719, 11719); (11727, 11727); (11735, 11735); (11743, 11743);
   (11870, 11903); (11930, 11930); (12020, 12031); (12246, 12271);
   (12284, 12288); (12352, 12352); (12439, 12440); (12544, 12548);
   (12592, 12592); (12687, 12687); (12772, 12783); (12831, 12831);
   (42125, 42127); (42183, 42191); (42540, 42559); (42744, 42751);
   (42955, 42959); (42962, 42962); (42964, 42964); (42970, 42993);
   (43053, 43055); (43066, 43071); (43128, 43135); (43206, 43213);
   (43226, 43231); (43348, 43358); (43389, 43391); (43470, 43470);
   (43482, 43485); (43519, 43519); (43575, 43583); (43598, 43599);
   (43610, 43611); (43715, 43738); (43767, 43776); (43783, 43784);
   (43791, 43792); (43799, 43807); (43815, 43815); (43823, 43823);
   (43884, 43887); (44014, 44015); (44026, 44031); (55204, 55215);
   (55239, 55242); (55292, 63743); (64110, 64111); (64218, 64255);
   (64263, 64274); (64280, 64284); (64311, 64311); (64317, 64317);
   (64319, 64319); (64322, 64322); (64325, 64325); (64451, 64466);
   (64912, 64913); (64968, 64974); (64976, 65007); (65050, 65055);
   (65107, 65107); (65127, 65127); (65132, 65135); (65141, 65141);
   (65277, 65280); (65471, 65473); (65480, 65481); (65488, 65489);
   (65496, 65497); (65501, 65503); (65511, 65511); (65519, 65531);
   (65534, 65535); (65548, 65548); (65575, 65575); (65595, 65595);
   (65598, 65598); (65614, 65615); (65630, 65663); (65787, 65791);
   (65795, 65798); (65844, 65846); (65935, 65935); (65949, 65951);
   (65953, 65999); (66046, 66175); (66205, 66207); (66257, 66271);
   (66300, 66303); (66340, 66348); (66379, 66383); (66427, 66431);
   (66462, 66462); (66500, 66503); (66518, 66559); (66718, 66719);
   (66730, 66735); (66772, 66775); (66812, 66815); (66856, 66863);
   (66916, 66926); (66939, 66939); (66955, 66955); (66963, 66963);
   (66966, 66966); (66978, 66978); (66994, 66994); (67002, 67002);
   (67005, 67071); (67383, 67391); (67414, 67423); (67432, 67455);
   (67462, 67462); (67505, 67505); (67515, 67583); (67590, 67591);
   (67593, 67593); (67638, 67638); (67641, 67643); (67645, 67646);
   (67670, 67670); (67743, 67750); (67760, 67807); (67827, 67827);
   (67830, 67834); (67868, 67870); (67898, 67902); (67904, 67967);
   (68024, 68027); (68048, 68049); (68100, 68100); (68103, 68107);
   (68116, 68116); (68120, 68120); (68150, 68151); (68155, 68158);
   (68169, 68175); (68185, 68191); (68256, 68287); (68327, 68330);
   (68343, 68351); (68406, 68408); (68438, 68439); (68467, 68471);
   (68498, 68504); (68509, 68520); (68528, 68607); (68681, 68735);
   (68787, 68799); (68851, 68857); (68904, 68911); (68922, 69215);
   (69247, 69247); (69290, 69290); (69294, 69295); (69298, 69375);
   (69416, 69423); (69466, 69487); (69514, 69551); (69580, 69599);
   (69623, 69631); (69710, 69713); (69750, 69758); (69821, 69821);
   (69827, 69839); (69865, 69871); (69882, 69887); (69941, 69941);
   (69960, 69967); (70007, 70015); (70112, 70112); (70133, 70143);
   (70162, 70162); (70207, 70271); (70279, 70279); (70281, 70281);
   (70286, 70286); (70302, 70302); (70314, 70319); (70379, 70383);
   (70394, 70399); (70404, 70404); (70413, 70414); (70417, 70418);
   (70441, 70441); (70449, 70449); (70452, 70452); (70458, 70458);
   (70469, 70470); (70473, 70474); (70478, 70479); (70481, 70486);
   (70488, 70492); (70500, 70501); (70509, 70511); (70517, 70655);
   (70748, 70748); (70754, 70783); (70856, 70863); (70874, 71039);
   (71094, 71095); (71134, 71167); (71237, 71247); (71258, 71263);
   (71277, 71295); (71354, 71359); (71370, 71423); (71451, 71452);
   (71468, 71471); (71495, 71679); (71740, 71839); (71923, 71934);
   (71943, 71944); (71946, 71947); (71956, 71956); (71959, 71959);
   (71990, 71990); (71993, 71994); (72007, 72015); (72026, 72095);
   (72104, 72105); (72152, 72153); (72165, 72191); (72264, 72271);
   (72355, 72367); (72441, 72703); (72713, 72713); (72759, 72759);
   (72774, 72783); (72813, 72815); (72848, 72849); (72872, 72872);
   (72887, 72959); (72967, 72967); (72970, 72970); (73015, 73017);
   (73019, 73019); (73022, 73022); (73032, 73039); (73050, 73055);
   (73062, 73062); (73065, 73065); (73103, 73103); (73106, 73106);
   (73113, 73119); (73130, 73439); (73465, 73647); (73649, 73663);
   (73714, 73726); (74650, 74751); (74863, 74863); (74869, 74879);
   (75076, 77711); (77811, 77823); (78895, 82943); (83527, 92159);
   (92729, 92735); (92767, 92767); (92778, 92781); (92863, 92863);
   (92874, 92879); (92910, 92911); (92918, 92927); (92998, 93007);
   (93018, 93018); (93026, 93026); (93048, 93052); (93072, 93759);
   (93851, 93951); (94027, 94030); (94088, 94094); (94112, 94175);
   (94181, 94191); (94194, 94207); (100344, 100351); (101590, 101631);
   (101641, 110575); (110580, 110580); (110588, 110588); (110591, 110591);
   (110883, 110927); (110931, 110947); (110952, 110959); (111356, 113663);
   (113771, 113775); (113789, 113791); (113801, 113807); (113818, 113819);
   (113824, 118527); (118574, 118575); (118599, 118607); (118724, 118783);
   (119030, 119039); (119079, 119080); (119155, 119162); (119275, 119295);
   (119366, 119519); (119540, 119551); (119639, 119647); (119673, 119807);
   (119893, 119893); (119965, 119965); (119968, 119969); (119971, 119972);
   (119975, 119976); (119981, 119981); (119994, 119994); (119996, 119996);
   (120004, 120004); (120070, 120070); (120075, 120076); (120085, 120085);
   (120093, 120093); (120122, 120122); (120127, 120127); (120133, 120133);
   (120135, 120137); (120145, 120145); (120486, 120487); (120780, 120781);
   (121484, 121498); (121504, 121504); (121520, 122623); (122655, 122879);
   (122887, 122887); (122905, 122906); (122914, 122914); (122917, 122917);
   (122923, 123135); (123181, 123183); (123198, 123199); (123210, 123213);
   (123216, 123535); (123567, 123583); (123642, 123646); (123648, 124895);
   (124903, 124903); (124908, 124908); (124911, 124911); (124927, 124927);
   (125125, 125126); (125143, 125183); (125260, 125263); (125274, 125277);
   (125280, 126064); (126133, 126208); (126270, 126463); (126468, 126468);
   (126496, 126496); (126499, 126499); (126501, 126502); (126504, 126504);
   (126515, 126515); (126520, 126520); (126522, 126522); (126524, 126529);
   (126531, 126534); (126536, 126536); (126538, 126538); (126540, 126540);
   (126544, 126544); (126547, 126547); (126549, 126550); (126552, 126552);
   (126554, 126554); (126556, 126556); (126558, 126558); (126560, 126560);
   (126563, 126563); (126565, 126566); (126571, 126571); (126579, 126579);
   (126584, 126584); (126589, 126589); (126591, 126591); (126602, 126602);
   (126620, 126624); (126628, 126628); (126634, 126634); (126652, 126703);
   (126706, 126975); (127020, 127023); (127124, 127135); (127151, 127152);
   (127168, 127168); (127184, 127184); (127222, 127231); (127406, 127461);
   (127491, 127503); (127548, 127551); (127561, 127567); (127570, 127583);
   (127590, 127743); (128728, 128732); (128749, 128751); (128765, 128767);
   (128884, 128895); (128985, 128991); (129004, 129007); (129009, 129023);
   (129036, 129039); (129096, 129103); (129114, 129119); (129160, 129167);
   (129198, 129199); (129202, 129279); (129620, 129631); (129646, 129647);
   (129653, 129655); (129661, 129663); (129671, 129679); (129709, 129711);
   (129723, 129727); (129734, 129743); (129754, 129759); (129768, 129775);
   (129783, 129791); (129939, 129939); (129995, 130031); (130042, 131071);
   (173792, 173823); (177977, 177983); (178206, 178207); (183970, 183983);
   (191457, 194559); (195102, 196607); (201547, 917759); (918000, 1114111)]
  )%N.

Definition unprintable (cp : N) : bool :=
  existsb (fun '(lo, hi) => ((lo <=? cp) && (cp <=? hi))%N) unprintable_ranges.

(** One code point inside [repr] of a text: a printable one is copied, any
    other is escaped, as [\xNN], [\uNNNN] or [\UNNNNNNNN] by its size. *)
Definition repr_codepoint (quote : ascii) (cp : N) : string :=
  if (cp <? 128)%N then repr_ascii quote (chr cp)
  else if unprintable cp then
    if (cp <? 256)%N then String backslash ("x" ++ hex 2 cp)
    else if (cp <? 65536)%N then String backslash ("u" ++ hex 4 cp)
    else String backslash ("U" ++ hex 8 cp)
  else utf8_encode cp.

(** The body of [repr] of a text. *)
Definition repr_text_body (quote : ascii) (s : string) : string :=
  join "" (map (repr_codepoint quote) (codepoints s)).

Definition repr_text (s : string) : string :=
  let q := repr_quote s in
  String q (repr_text_body q s ++ str1 q).

Definition text_of_bytes (b : list byte) : string := string_of_list_byte b.

(** [repr] of a [bytes] object. *)
Definition repr_bytes (b : list byte) : string :=
  let s := text_of_bytes b in
  let q := repr_quote s in
  let one c :=
    if (ord c <? 128)%N then repr_ascii q c
    else String backslash ("x" ++ hex 2 (ord c)) in
  "b" ++ String q (join "" (map one (list_ascii_of_string s)) ++ str1 q).

(** [repr(v)]. *)
Fixpoint repr (v : value) : string :=
  match v with
  | VNone => "None"
  | VBool true => "True"
  | VBool false => "False"
  | VInt n => str_of_Z n
  | VFloat x => Float.repr x
  | VStr s => repr_text s
  | VList items => "[" ++ join ", " (map repr items) ++ "]"
  | VDict entries =>
      "{" ++ join ", "
               (map (fun '(k, x) => repr_text k ++ ": " ++ repr x) entries)
          ++ "}"
  end.

(** [str(v)]: a text is its own [str], anything else prints as [repr]. *)
Definition str (v : value) : string :=
  match v with
  | VStr s => s
  | _ => repr v
  end.

(** [type(v).__name__]. *)
Definition type_name (v : value) : string :=
  match v with
  | VNone => "NoneType"
  | VBool _ => "bool"
  | VInt _ => "int"
  | VFloat _ => "float"
  | VStr _ => "str"
  | VList _ => "list"
  | VDict _ => "dict"
  end.

(* ----------------------------------------------------------------- *)
(** *** Subscripts, comparison, concatenation *)

Fixpoint dict_get (key : string) (entries : list (string * value))
  : option value :=
  match entries with
  | [] => None
  | (k, x) :: rest => if String.eqb k key then Some x else dict_get key rest
  end.

(** [d[key] = x] on a dictionary: an existing key keeps its place. *)
Fixpoint dict_set (key : string) (x : value) (entries : list (string * value))
  : list (string * value) :=
  match entries with
  | [] => [(key, x)]
  | (k, y) :: rest =>
      if String.eqb k key then (k, x) :: rest
      else (k, y) :: dict_set key x rest
  end.

Definition not_subscriptable {A : Type} (v : value) : result A :=
  raise TypeError
    (str1 squote ++ type_name v ++ str1 squote ++ " object is not subscriptable").

(** [v[key]] with a text key.  The messages of [TypeError] follow
    CPython 3.11. *)
Definition getitem_str (v : value) (key : string) : result value :=
  match v with
  | VDict entries =>
      match dict_get key entries with
      | Some x => Ok x
      | None => Raise (mk_exn KeyError [VStr key])
      end
  | VList _ =>
      raise TypeError "list indices must be integers or slices, not str"
  | VStr _ =>
      raise TypeError "string indices must be integers, not 'str'"
  | _ => not_subscriptable v
  end.

(** Index [i] of a sequence of length [n], counted from the end when
    negative; [None] when out of range. *)
Definition norm_index (i n : Z) : option nat :=
  let j := if i <? 0 then i + n else i in
  if (0 <=? j) && (j <? n) then Some (Z.to_nat j) else None.

(** [v[i]] with an integer index.  A dictionary decoded from JSON has text
    keys only, so an integer is never one of them. *)
Definition getitem_int (v : value) (i : Z) : result value :=
  match v with
  | VList items =>
      match norm_index i (Z.of_nat (List.length items)) with
      | Some j =>
          match nth_error items j with
          | Some x => Ok x
          | None => raise IndexError "list index out of range"
          end
      | None => raise IndexError "list index out of range"
      end
  | VStr s =>
      let cps := codepoints s in
      match norm_index i (Z.of_nat (List.length cps)) with
      | Some j =>
          match nth_error cps j with
          | Some cp => Ok (VStr (utf8_encode cp))
          | None => raise IndexError "string index out of range"
          end
      | None => raise IndexError "string index out of range"
      end
  | VDict _ => Raise (mk_exn KeyError [VInt i])
  | _ => not_subscriptable v
  end.

(** [v == s] for a text literal [s]: no value of another type equals a
    text. *)
Definition eq_text (v : value) (s : string) : bool :=
  match v with
  | VStr t => String.eqb t s
  | _ => false
  end.

(** [s + v] for a text literal [s]. *)
Definition text_add (s : string) (v : value) : result string :=
  match v with
  | VStr t => Ok (s ++ t)
  | _ =>
      raise TypeError
        ("can only concatenate str (not " ++ str1 dquote ++ type_name v
         ++ str1 dquote ++ ") to str")
  end.

End Py.

Import Py.

Notation "'let?' x ':=' r 'in' k" := (Py.bind r (fun x => k))
  (at level 10, x name, r at level 100, k at level 200).

(* ================================================================= *)
(** ** The [json] module *)

Module Json.

Definition error {A : Type} (msg : string) : result A :=
  raise JSONDecodeError msg.

Definition is_ws (c : ascii) : bool :=
  Ascii.eqb c " " || Ascii.eqb c tab || Ascii.eqb c newline || Ascii.eqb c cr.

Fixpoint skip_ws (s : string) : string :=
  match s with
  | String c rest => if is_ws c then skip_ws rest else s
  | EmptyString => s
  end.

Definition drop (n : nat) (s : string) : string :=
  substring n (String.length s - n) s.

Definition is_digit (c : ascii) : bool :=
  ((48 <=? ord c) && (ord c <=? 57))%N.

Definition hex_value (c : ascii) : option N :=
  let n := ord c in
  (if (48 <=? n) && (n <=? 57) then Some (n - 48)
   else if (97 <=? n) && (n <=? 102) then Some (n - 87)
   else if (65 <=? n) && (n <=? 70) then Some (n - 55)
   else None)%N.

(** The four hexadecimal digits of a [\uXXXX] escape. *)
Definition decode_uXXXX (s : string) : option (N * string) :=
  match s with
  | String a (String b (String c (String d rest))) =>
      match hex_value a, hex_value b, hex_value c, hex_value d with
      | Some x, Some y, Some z, Some w =>
          Some (((x * 16 + y) * 16 + z) * 16 + w, rest)%N
      | _, _, _, _ => None
      end
  | _ => None
  end.

Definition simple_escape (c : ascii) : option ascii :=
  if Ascii.eqb c dquote then Some dquote
  else if Ascii.eqb c backslash then Some backslash
  else if Ascii.eqb c "/" then Some "/"%char
  else if Ascii.eqb c "b" then Some (chr 8)
  else if Ascii.eqb c "f" then Some (chr 12)
  else if Ascii.eqb c "n" then Some newline
  else if Ascii.eqb c "r" then Some cr
  else if Ascii.eqb c "t" then Some tab
  else None.

Definition is_high_surrogate (n : N) : bool := ((55296 <=? n) && (n <=? 56319))%N.
Definition is_low_surrogate (n : N) : bool := ((56320 <=? n) && (n <=? 57343))%N.

(** [scanstring] in strict mode, from just after the opening quote: the
    decoded text and what follows the closing quote. *)
Fixpoint scanstring (fuel : nat) (s : string) (acc : string)
  : result (string * string) :=
  match fuel, s with
  | O, _ | _, EmptyString => error "Unterminated string starting at"
  | S fuel', String c rest =>
      if Ascii.eqb c dquote then Ok (acc, rest)
      else if Ascii.eqb c backslash then
        match rest with
        | EmptyString => error "Unterminated string starting at"
        | String e rest' =>
            if Ascii.eqb e "u" then
              match decode_uXXXX rest' with
              | None => error "Invalid \uXXXX escape"
              | Some (uni, after) =>
                  if is_high_surrogate uni
                     && startswith after (String backslash "u") then
                    match decode_uXXXX (drop 2 after) with
                    | None => error "Invalid \uXXXX escape"
                    | Some (uni2, after2) =>
                        if is_low_surrogate uni2 then
                          scanstring fuel' after2
                            (acc ++ utf8_encode
                               (65536 + (uni - 55296) * 1024 + (uni2 - 56320))%N)
                        else scanstring fuel' after (acc ++ utf8_encode uni)
                    end
                  else scanstring fuel' after (acc ++ utf8_encode uni)
              end
            else
              match simple_escape e with
              | Some x => scanstring fuel' rest' (acc ++ str1 x)
              | None => error "Invalid \escape"
              end
        end
      else if (ord c <? 32)%N then error "Invalid control character at"
      else scanstring fuel' rest (acc ++ str1 c)
  end.

Fixpoint span_digits (s : string) : string * string :=
  match s with
  | String c rest =>
      if is_digit c then let '(d, r) := span_digits rest in (String c d, r)
      else (EmptyString, s)
  | EmptyString => (EmptyString, s)
  end.

Definition Z_of_digits (d : string) : Z :=
  fold_left (fun acc c => acc * 10 + Z.of_N (ord c - 48))
            (list_ascii_of_string d) 0.

(** The integer part of a number: [0], or a digit from 1 to 9 followed by
    digits. *)
Definition int_part (s : string) : option (string * string) :=
  match s with
  | String c rest =>
      if Ascii.eqb c "0" then Some ("0", rest)
      else if is_digit c then Some (span_digits s)
      else None
  | EmptyString => None
  end.

(** [.digits], when at least one digit follows the point. *)
Definition frac_part (s : string) : option (string * string) :=
  match s with
  | String c rest =>
      if Ascii.eqb c "." then
        match span_digits rest with
        | (EmptyString, _) => None
        | (d, r) => Some (d, r)
        end
      else None
  | EmptyString => None
  end.

(** [e], an optional sign and at least one digit. *)
Definition exp_part (s : string) : option (Z * string) :=
  match s with
  | String c rest =>
      if Ascii.eqb c "e" || Ascii.eqb c "E" then
        let '(neg, rest1) :=
          match rest with
          | String sg r =>
              if Ascii.eqb sg "-" then (true, r)
              else if Ascii.eqb sg "+" then (false, r)
              else (false, rest)
          | EmptyString => (false, rest)
          end in
        match span_digits rest1 with
        | (EmptyString, _) => None
        | (d, r) => Some (if neg then - Z_of_digits d else Z_of_digits d, r)
        end
      else None
  | EmptyString => None
  end.

(** [int(digits)] for the digits of a JSON integer: CPython converts no
    text of more than 4300 digits (the default of
    [sys.set_int_max_str_digits]). *)
Definition int_of_digits (neg : bool) (digits : string) : result value :=
  if (4300 <? String.length digits)%nat then
    raise ValueError
      ("Exceeds the limit (4300 digits) for integer string conversion: "
       ++ "value has " ++ str_of_Z (Z.of_nat (String.length digits))
       ++ " digits; use sys.set_int_max_str_digits() to increase the limit")
  else Ok (VInt (if neg then - Z_of_digits digits else Z_of_digits digits)).

(** A number at the head of [s]: an [int] when it has neither fraction nor
    exponent, a [float] otherwise. *)
Definition match_number (s : string) : option (result value * string) :=
  let '(neg, s1) :=
    match s with
    | String c rest => if Ascii.eqb c "-" then (true, rest) else (false, s)
    | EmptyString => (false, s)
    end in
  match int_part s1 with
  | None => None
  | Some (int, s2) =>
      let '(frac, s3) :=
        match frac_part s2 with
        | Some (d, r) => (Some d, r)
        | None => (None, s2)
        end in
      let '(ex, s4) :=
        match exp_part s3 with
        | Some (x, r) => (Some x, r)
        | None => (None, s3)
        end in
      match frac, ex with
      | None, None => Some (int_of_digits neg int, s4)
      | _, _ =>
          let f := match frac with Some d => d | None => EmptyString end in
          let x := match ex with Some x => x | None => 0 end in
          let digits := int ++ f in
          Some (Ok (VFloat
                      (Float.of_decimal neg (Z_of_digits digits)
                         (Z.of_nat (String.length digits))
                         (x - Z.of_nat (String.length f)))),
                s4)
      end
  end.

(** [dict(pairs)]: a repeated key keeps its first place and its last
    value. *)
Definition dict_of_pairs (pairs : list (string * value))
  : list (string * value) :=
  fold_left (fun d '(k, x) => dict_set k x d) pairs [].

(** The scanner.  [scan_once] reads one value at the head of [s];
    [object_members] reads the members of an object from the quote that
    opens a key; [array_items] the items of an array.  Each call consumes
    at least one character, so [loads], which gives a fuel of the
    document's length, never uses it up: this reader takes documents
    nested to any depth.  CPython bounds the nesting by the recursion
    limit of the interpreter and raises [RecursionError] beyond it, at a
    depth that depends on the call stack of the caller; that bound is not
    modelled. *)
Fixpoint scan_once (fuel : nat) (s : string) : result (value * string) :=
  match fuel with
  | O => raise RecursionError "maximum recursion depth exceeded"
  | S fuel' =>
      match s with
      | EmptyString => error "Expecting value"
      | String c rest =>
          if Ascii.eqb c dquote then
            let? r := scanstring (String.length rest) rest "" in
            Ok (VStr (fst r), snd r)
          else if Ascii.eqb c "{" then
            let s1 := skip_ws rest in
            match s1 with
            | String c1 rest1 =>
                if Ascii.eqb c1 "}" then Ok (VDict [], rest1)
                else if Ascii.eqb c1 dquote then
                  let? r := object_members fuel' rest1 [] in
                  Ok (VDict (dict_of_pairs (fst r)), snd r)
                else error "Expecting property name enclosed in double quotes"
            | EmptyString =>
                error "Expecting property name enclosed in double quotes"
            end
          else if Ascii.eqb c "[" then
            let s1 := skip_ws rest in
            match s1 with
            | String c1 rest1 =>
                if Ascii.eqb c1 "]" then Ok (VList [], rest1)
                else
                  let? r := array_items fuel' s1 [] in
                  Ok (VList (fst r), snd r)
            | EmptyString => error "Expecting value"
            end
          else if startswith s "null" then Ok (VNone, drop 4 s)
          else if startswith s "true" then Ok (VBool true, drop 4 s)
          else if startswith s "false" then Ok (VBool false, drop 5 s)
          else
            match match_number s with
            | Some (number, rest) => let? x := number in Ok (x, rest)
            | None =>
                if startswith s "NaN" then Ok (VFloat S754_nan, drop 3 s)
                else if startswith s "Infinity"
                then Ok (VFloat (S754_infinity false), drop 8 s)
                else if startswith s "-Infinity"
                then Ok (VFloat (S754_infinity true), drop 9 s)
                else error "Expecting value"
            end
      end
  end

with object_members (fuel : nat) (s : string) (acc : list (string * value))
  : result (list (string * value) * string) :=
  match fuel with
  | O => raise RecursionError "maximum recursion depth exceeded"
  | S fuel' =>
      let? k := scanstring (String.length s) s "" in
      match skip_ws (snd k) with
      | String c rest =>
          if Ascii.eqb c ":" then
            let? x := scan_once fuel' (skip_ws rest) in
            let acc' := (acc ++ [(fst k, fst x)])%list in
            match skip_ws (snd x) with
            | String d rest' =>
                if Ascii.eqb d "}" then Ok (acc', rest')
                else if Ascii.eqb d "," then
                  match skip_ws rest' with
                  | String q rest'' =>
                      if Ascii.eqb q dquote
                      then object_members fuel' rest'' acc'
                      else error
                        "Expecting property name enclosed in double quotes"
                  | EmptyString =>
                      error "Expecting property name enclosed in double quotes"
                  end
                else error "Expecting ',' delimiter"
            | EmptyString => error "Expecting ',' delimiter"
            end
          else error "Expecting ':' delimiter"
      | EmptyString => error "Expecting ':' delimiter"
      end
  end

with array_items (fuel : nat) (s : string) (acc : list value)
  : result (list value * string) :=
  match fuel with
  | O => raise RecursionError "maximum recursion depth exceeded"
  | S fuel' =>
      let? x := scan_once fuel' s in
      let acc' := (acc ++ [fst x])%list in
      match skip_ws (snd x) with
      | String d rest =>
          if Ascii.eqb d "]" then Ok (acc', rest)
          else if Ascii.eqb d "," then array_items fuel' (skip_ws rest) acc'
          else error "Expecting ',' delimiter"
      | EmptyString => error "Expecting ',' delimiter"
      end
  end.

Definition bom : string := utf8_encode 65279.

(** [json.loads(s)] for a text [s], as the scripted runtime has it.  Of a
    [JSONDecodeError] only the message is kept, not the position that
    Python appends to it. *)
Definition loads (s : string) : result value :=
  if startswith s bom
  then error "Unexpected UTF-8 BOM (decode using utf-8-sig)"
  else
    let? r := scan_once (S (String.length s)) (skip_ws s) in
    match skip_ws (snd r) with
    | EmptyString => Ok (fst r)
    | String _ _ => error "Extra data"
    end.

(** One code point inside a JSON string, with [ensure_ascii] on. *)
Definition escape_codepoint (cp : N) : string :=
  (if cp =? 34 then String backslash (str1 dquote)
   else if cp =? 92 then String backslash (str1 backslash)
   else if cp =? 10 then String backslash "n"
   else if cp =? 13 then String backslash "r"
   else if cp =? 9 then String backslash "t"
   else if cp =? 12 then String backslash "f"
   else if cp =? 8 then String backslash "b"
   else if (32 <=? cp) && (cp <=? 126) then str1 (chr cp)
   else if cp <? 65536 then String backslash ("u" ++ hex 4 cp)
   else
     let v := cp - 65536 in
     String backslash ("u" ++ hex 4 (55296 + v / 1024))
     ++ String backslash ("u" ++ hex 4 (56320 + v mod 1024)))%N.

Definition encode_text (s : string) : string :=
  String dquote (join "" (map escape_codepoint (codepoints s)) ++ str1 dquote).

Definition encode_float (x : spec_float) : string :=
  match x with
  | S754_nan => "NaN"
  | S754_infinity s => if s then "-Infinity" else "Infinity"
  | _ => Float.repr x
  end.

(** [json.dumps(v)] with the default options. *)
Fixpoint dumps (v : value) : string :=
  match v with
  | VNone => "null"
  | VBool true => "true"
  | VBool false => "false"
  | VInt n => str_of_Z n
  | VFloat x => encode_float x
  | VStr s => encode_text s
  | VList items => "[" ++ join ", " (map dumps items) ++ "]"
  | VDict entries =>
      "{" ++ join ", "
               (map (fun '(k, x) => encode_text k ++ ": " ++ dumps x) entries)
          ++ "}"
  end.

End Json.

(* ================================================================= *)
(** ** Byte codecs *)

Module Codec.

Definition lower (c : ascii) : ascii :=
  if ((65 <=? ord c) && (ord c <=? 90))%N then chr (ord c + 32)
  else if Ascii.eqb c "-" || Ascii.eqb c " " then "_"%char
  else c.

Definition normalize (name : string) : string :=
  string_of_list_ascii (map lower (list_ascii_of_string name)).

Inductive codec : Type := Utf8 | Ascii7 | Latin1.

(** The codecs of the scripted runtime, under their usual names: UTF-8,
    ASCII and Latin-1.  An interpreter has many more; the methods of
    [api.py] reach them through [bytes_decode] of the runtime, and this
    registry serves the examples. *)
Definition lookup (name : string) : option codec :=
  let n := normalize name in
  if existsb (String.eqb n) ["utf_8"; "utf8"; "u8"; "utf"; "cp65001"]
  then Some Utf8
  else if existsb (String.eqb n) ["ascii"; "us_ascii"; "646"]
  then Some Ascii7
  else if existsb (String.eqb n)
            ["latin_1"; "latin1"; "iso_8859_1"; "iso8859_1"; "l1"; "cp819";
             "8859"; "latin"]
  then Some Latin1
  else None.

Definition between (lo hi n : N) : bool := ((lo <=? n) && (n <=? hi))%N.

(** Well-formed UTF-8, by the table of byte ranges of the Unicode
    standard: no overlong form, no surrogate, nothing above U+10FFFF. *)
Fixpoint utf8_valid (b : list N) : bool :=
  match b with
  | [] => true
  | a :: rest =>
      if (a <? 128)%N then utf8_valid rest
      else
        match rest with
        | c1 :: rest1 =>
            if between 194 223 a then between 128 191 c1 && utf8_valid rest1
            else
              match rest1 with
              | c2 :: rest2 =>
                  if between 224 239 a then
                    between (if (a =? 224)%N then 160 else 128)
                            (if (a =? 237)%N then 159 else 191) c1
                    && between 128 191 c2 && utf8_valid rest2
                  else
                    match rest2 with
                    | c3 :: rest3 =>
                        between 240 244 a
                        && between (if (a =? 240)%N then 144 else 128)
                                   (if (a =? 244)%N then 143 else 191) c1
                        && between 128 191 c2 && between 128 191 c3
                        && utf8_valid rest3
                    | [] => false
                    end
              | [] => false
              end
        | [] => false
        end
  end.

Definition decode_error {A : Type} (name reason : string) : result A :=
  Raise (mk_exn UnicodeDecodeError [VStr name; VStr reason]).

(** [b.decode(encoding)] with strict error handling, for the encodings
    of [lookup]; any other name is unknown to this registry. *)
Definition decode (encoding : string) (b : list byte) : result string :=
  let codes := map Byte.to_N b in
  match lookup encoding with
  | None => raise LookupError ("unknown encoding: " ++ encoding)
  | Some Utf8 =>
      if utf8_valid codes then Ok (text_of_bytes b)
      else decode_error "utf-8" "invalid byte sequence"
  | Some Ascii7 =>
      if forallb (fun n => (n <? 128)%N) codes then Ok (text_of_bytes b)
      else decode_error "ascii" "ordinal not in range(128)"
  | Some Latin1 => Ok (join "" (map utf8_encode codes))
  end.

End Codec.

(* ================================================================= *)
(** ** The outside world: HTTP and the clock *)

Module Requests.

(** The arguments [_request] hands to [requests.request]. *)
Record Request : Type := {
  req_method : string;
  req_url : string;
  req_data : string;
  req_timeout : value;
  req_headers : list (string * string);
  req_stream : bool
}.

(** What the methods of [api.py] read from a response: the status code,
    the body, what [r.json()] returns or raises, and the chunks in which
    [iter_content(chunk_size)] hands the body out, ended either by the
    close of the connection ([None]) or by an exception.  [requests]
    computes [json()] from the body and from the headers of the response,
    which are not kept here (it reads the body in the charset the headers
    declare or, without one, in the one it detects from the first bytes,
    and parses the text as one JSON document); its outcome is taken as
    part of the response. *)
Record Response : Type := {
  status_code : Z;
  content : list byte;
  json : result value;
  iter_content : Z -> list (list byte) * option exn
}.

End Requests.

Import Requests.

(** What [api.py] asks of the runtime it runs in.  Two effects on the
    world [W]: sending a request, and letting [secs] seconds pass.  And
    the two library calls of the streaming decoder, which leave the world
    as it is: [chunk.decode(encoding)] with the codecs the interpreter
    has, and [json.loads(text)]. *)
Class Env (W : Type) : Type := {
  requests_request : Request -> W -> result Response * W;
  elapse : Z -> W -> W;
  bytes_decode : string -> list byte -> result string;
  json_loads : string -> result value
}.

(** A computation that may raise and may change the world. *)
Definition M (W A : Type) : Type := W -> result A * W.

Definition ret {W A : Type} (a : A) : M W A := fun w => (Ok a, w).

Definition throw {W A : Type} (e : exn) : M W A := fun w => (Raise e, w).

Definition lift {W A : Type} (r : result A) : M W A := fun w => (r, w).

Definition mbind {W A B : Type} (m : M W A) (k : A -> M W B) : M W B :=
  fun w =>
    match m w with
    | (Ok a, w') => k a w'
    | (Raise e, w') => (Raise e, w')
    end.

Notation "x <- m ;; k" := (mbind m (fun x => k))
  (at level 61, m at next level, right associativity).

(** [time.sleep(secs)]. *)
Definition time_sleep {W : Type} `{Env W} (secs : Z) : M W unit :=
  fun w =>
    if secs <? 0
    then (raise ValueError "sleep length must be non-negative", w)
    else (Ok tt, elapse secs w).

(** [range(n)]. *)
Definition range (n : Z) : list Z :=
  map Z.of_nat (seq 0 (Z.to_nat n)).

Fixpoint bytes_eqb (a b : list byte) : bool :=
  match a, b with
  | [], [] => true
  | x :: a', y :: b' => Byte.eqb x y && bytes_eqb a' b'
  | _, _ => false
  end.

(** A default argument: the value passed, or the default. *)
Definition or_default {A : Type} (arg : option A) (default : A) : A :=
  match arg with
  | Some a => a
  | None => default
  end.

(* ================================================================= *)
(** ** [class BaseAPI] *)

Module BaseAPI.

(** The attributes set by [__init__]. *)
Record self : Type := {
  url : string;
  max_retries : value;
  delay : value;
  timeout : value
}.

(** [kwargs.get(key, default)]. *)
Definition kwargs_get (kwargs : list (string * value)) (key : string)
  (default : value) : value :=
  match dict_get key kwargs with
  | Some x => x
  | None => default
  end.

(** [__init__], lines 13-17. *)
Definition __init__ (url : string) (kwargs : list (string * value)) : self :=
  {| url := url;
     max_retries := kwargs_get kwargs "max_retries" (VInt 3);
     delay := kwargs_get kwargs "delay" (VInt 0);
     timeout := kwargs_get kwargs "timeout" (VInt 5) |}.

(** [get_timout], lines 19-20. *)
Definition get_timout (s : self) : value := timeout s.

(** [_validate_sql_string], lines 22-29. *)
Definition _validate_sql_string (sql_string : string) : result string :=
  if (0 <? String.length sql_string)%nat then
    match last_char sql_string with
    | Some c =>
        if negb (Ascii.eqb c ";") then Ok (sql_string ++ ";")
        else Ok sql_string
    | None => raise IndexError "string index out of range"
    end
  else Raise (mk_exn InvalidQueryError [VStr sql_string]).

(** [_parse_ksql_res], lines 31-41.  The argument [error] is not used by
    the body.  Each [r[0]] is evaluated where the source writes it. *)
Definition _parse_ksql_res (r : value) (error : exn_class) : result value :=
  let? first := getitem_int r 0 in
  if contains "commandStatus" (str first) then
    let? first := getitem_int r 0 in
    let? current := getitem_str first "currentStatus" in
    let? command := getitem_str current "commandStatus" in
    let? status := getitem_str command "status" in
    if eq_text status "SUCCESS" then Ok (VBool true)
    else
      let? first := getitem_int r 0 in
      let? current := getitem_str first "currentStatus" in
      let? command := getitem_str current "commandStatus" in
      let? message := getitem_str command "message" in
      Raise (mk_exn CreateError [message])
  else
    let? first := getitem_int r 0 in
    let? err := getitem_str first "error" in
    let? error_message := getitem_str err "errorMessage" in
    let? message := getitem_str error_message "message" in
    let? r := text_add "Message: " message in
    Raise (mk_exn CreateError [VStr r]).

Section Effects.

Context {W : Type} `{Env W}.

(** [_request], lines 70-97. *)
Definition _request (s : self) (endpoint : string) (method : option string)
  (sql_string : option string) (streams_properties : option value)
  : M W Response :=
  let method := or_default method "post" in
  let sql_string := or_default sql_string "" in
  let streams_properties := or_default streams_properties (VDict []) in
  let url := url s ++ "/" ++ endpoint in
  sql_string <- lift (_validate_sql_string sql_string) ;;
  let data :=
    Json.dumps (VDict [("ksql", VStr sql_string);
                       ("streamsProperties", streams_properties)]) in
  let headers :=
    [("Accept", "application/json"); ("Content-Type", "application/json")] in
  let stream := if String.eqb endpoint "query" then true else false in
  r <- requests_request
         {| req_method := method;
            req_url := url;
            req_data := data;
            req_timeout := timeout s;
            req_headers := headers;
            req_stream := stream |} ;;
  ret r.

(** [ksql], lines 43-52. *)
Definition ksql (s : self) (ksql_string : string)
  (streams_properties : option value) : M W value :=
  let streams_properties := or_default streams_properties (VDict []) in
  r <- _request s "ksql" None (Some ksql_string) (Some streams_properties) ;;
  if status_code r =? 200 then
    r <- lift (Requests.json r) ;;
    ret r
  else
    throw (mk_exn ValueError
             [VStr ("Status Code: " ++ str_of_Z (status_code r) ++ "."
                    ++ str1 newline ++ "Message: "
                    ++ repr_bytes (content r))]).

(** [query], lines 54-68, is a generator function: calling it runs
    nothing and returns a generator, which is resumed by [next].  A
    generator is [Created] until its first [next], which sends the
    request; it is then [Running] over the chunks of the body that are
    still to be read, and [Finished] once it has returned or raised. *)
Inductive generator : Type :=
| Created (query_string : string) (encoding : string) (chunk_size : Z)
          (streams_properties : value)
| Running (encoding : string) (chunks : list (list byte))
          (ending : option exn)
| Finished.

Definition query (s : self) (query_string : string)
  (encoding : option string) (chunk_size : option Z)
  (streams_properties : option value) : generator :=
  Created query_string (or_default encoding "utf-8")
          (or_default chunk_size 128)
          (or_default streams_properties (VDict [])).

(** The loop of [query], from the chunks still to be read up to the next
    [yield], the end of the body, or an error.  The loop ends, and the
    generator returns, when the iterator of the chunks raises
    [StopIteration]; any other exception, and any exception of the loop's
    body, leaves the generator. *)
Fixpoint resume (encoding : string) (chunks : list (list byte))
  (ending : option exn) : result value * generator :=
  match chunks with
  | [] =>
      match ending with
      | Some e =>
          if isinstance e [StopIteration]
          then (Raise (mk_exn StopIteration []), Finished)
          else (Raise e, Finished)
      | None => (Raise (mk_exn StopIteration []), Finished)
      end
  | chunk :: rest =>
      if negb (bytes_eqb chunk [byte_of_ascii newline]) then
        match (let? text := bytes_decode (W:=W) encoding chunk in
               json_loads (W:=W) text) with
        | Ok row => (Ok row, Running encoding rest ending)
        | Raise e => (Raise (leaving_generator e), Finished)
        end
      else resume encoding rest ending
  end.

(** [next(g)] on a generator made by [query]. *)
Definition next (s : self) (g : generator) (w : W)
  : result value * generator * W :=
  match g with
  | Created query_string encoding chunk_size streams_properties =>
      match _request s "query" None (Some query_string)
                     (Some streams_properties) w with
      | (Ok r, w') =>
          let '(chunks, ending) := iter_content r chunk_size in
          (resume encoding chunks ending, w')
      | (Raise e, w') => (Raise (leaving_generator e), Finished, w')
      end
  | Running encoding chunks ending => (resume encoding chunks ending, w)
  | Finished => (Raise (mk_exn StopIteration []), Finished, w)
  end.

(** [for row in g] run to the end: the rows yielded, and the exception
    that ended the iteration if it was not [StopIteration]. *)
Fixpoint exhaust (fuel : nat) (s : self) (g : generator) (w : W)
  : list value * option exn * W :=
  match fuel with
  | O => ([], None, w)
  | S fuel' =>
      match next s g w with
      | (Ok row, g', w') =>
          let '(rows, e, w'') := exhaust fuel' s g' w' in
          (row :: rows, e, w'')
      | (Raise e, _, w') =>
          if exn_class_eqb (exn_cls e) StopIteration then ([], None, w')
          else ([], Some e, w')
      end
  end.

(** [retry], lines 99-133: the loop of [inner_wrapper], over the counters
    of [range(max_retries)] that are still to come. *)
Fixpoint inner_loop {Args : Type} (exceptions : list exn_class) (delay : Z)
  (function : Args -> M W value) (args : Args)
  (counters : list Z) (final_excep : option exn) : M W value :=
  match counters with
  | [] =>
      match final_excep with
      | Some e => throw e
      | None => ret VNone
      end
  | counter :: rest =>
      _ <- (if 0 <? counter then time_sleep delay else ret tt) ;;
      fun w =>
        match function args w with
        | (Ok value, w') => (Ok value, w')
        | (Raise e, w') =>
            if isinstance e exceptions
            then inner_loop exceptions delay function args rest (Some e) w'
            else (Raise e, w')
        end
  end.

Definition retry {Args : Type} (exceptions : list exn_class)
  (delay : option Z) (max_retries : option Z)
  : (Args -> M W value) -> Args -> M W value :=
  let delay := or_default delay 1 in
  let max_retries := or_default max_retries 5 in
  let outer_wrapper (function : Args -> M W value) :=
    let inner_wrapper (args : Args) :=
      inner_loop exceptions delay function args (range max_retries) None in
    inner_wrapper in
  outer_wrapper.

End Effects.

End BaseAPI.

(* ================================================================= *)
(** ** [class SimplifiedAPI(BaseAPI)] *)

Module SimplifiedAPI.

Import BaseAPI.

(** The arguments of [_create_as] after [self]. *)
Record create_as_args : Type := {
  table_type : value;
  table_name : value;
  select_columns : value;
  src_table : value;
  kafka_topic : option value;
  value_format : option value;
  conditions : option value;
  partition_by : option value;
  kwargs : list (string * value)
}.

Section Methods.

Context {W : Type} `{Env W}.

(** [SQLBuilder.build] of [ksql/builder.py], which is not among the
    sources at hand.  Per the spec it is a collaborator with the contract
    [build(statement_kind, parameters...) -> statement_text]; it is taken
    as a parameter, from the keyword arguments to the text or an error. *)
Variable SQLBuilder_build : list (string * value) -> result string.

(** [__init__], lines 137-138. *)
Definition __init__ (url : string) (kwargs : list (string * value)) : self :=
  BaseAPI.__init__ url kwargs.

(** [_create], lines 179-193. *)
Definition _create (s : self) (table_type table_name columns_type topic : value)
  (value_format : option value) : M W value :=
  let value_format := or_default value_format (VStr "JSON") in
  ksql_string <- lift (SQLBuilder_build
                         [("sql_type", VStr "create");
                          ("table_type", table_type);
                          ("table_name", table_name);
                          ("columns_type", columns_type);
                          ("topic", topic);
                          ("value_format", value_format)]) ;;
  r <- ksql s ksql_string None ;;
  lift (_parse_ksql_res r CreateError).

(** The function that [_create_as] names before decoration, lines
    196-218.  The call of line 205 writes nine keywords out and adds
    [**kwargs]; [build] is taken to be a method of a class [SQLBuilder]
    defined in the module [ksql.builder]. *)
Definition _create_as__wrapped__ (args : self * create_as_args) : M W value :=
  let '(s, a) := args in
  let kafka_topic := or_default (kafka_topic a) VNone in
  let value_format := or_default (value_format a) (VStr "JSON") in
  let conditions := or_default (conditions a) (VList []) in
  let partition_by := or_default (partition_by a) VNone in
  arguments <- lift (keywords "ksql.builder.SQLBuilder.build"
                       [("sql_type", VStr "create_as");
                        ("table_type", table_type a);
                        ("table_name", table_name a);
                        ("select_columns", select_columns a);
                        ("src_table", src_table a);
                        ("kafka_topic", kafka_topic);
                        ("value_format", value_format);
                        ("conditions", conditions);
                        ("partition_by", partition_by)]
                       (kwargs a)) ;;
  ksql_string <- lift (SQLBuilder_build arguments) ;;
  r <- ksql s ksql_string None ;;
  lift (_parse_ksql_res r CreateError).

(** [_create_as], line 195: the decorator is called with the exception
    classes only, so [delay] and [max_retries] take the defaults of
    [retry]. *)
Definition _create_as : self * create_as_args -> M W value :=
  retry [Timeout; CreateError] None None _create_as__wrapped__.

(** [create_stream], lines 140-150. *)
Definition create_stream (s : self) (table_name columns_type topic : value)
  (value_format : option value) : M W value :=
  let value_format := or_default value_format (VStr "JSON") in
  _create s (VStr "stream") table_name columns_type topic (Some value_format).

(** [create_table], lines 152-157. *)
Definition create_table (s : self)
  (table_name columns_type topic value_format : value) : M W value :=
  _create s (VStr "table") table_name columns_type topic (Some value_format).

(** [create_stream_as], lines 159-177.  The call of line 169 writes
    eight keywords out and adds [**kwargs]; the method called is the
    decorated [_create_as], which bears the name of the function it
    wraps. *)
Definition create_stream_as (s : self)
  (table_name select_columns src_table : value)
  (kafka_topic value_format conditions partition_by : option value)
  (kwargs : list (string * value)) : M W value :=
  let kafka_topic := or_default kafka_topic VNone in
  let value_format := or_default value_format (VStr "JSON") in
  let conditions := or_default conditions (VList []) in
  let partition_by := or_default partition_by VNone in
  _ <- lift (keywords "ksql.api.SimplifiedAPI._create_as"
               [("table_type", VStr "stream");
                ("table_name", table_name);
                ("select_columns", select_columns);
                ("src_table", src_table);
                ("kafka_topic", kafka_topic);
                ("value_format", value_format);
                ("conditions", conditions);
                ("partition_by", partition_by)]
               kwargs) ;;
  _create_as (s, {| table_type := VStr "stream";
                    table_name := table_name;
                    select_columns := select_columns;
                    src_table := src_table;
                    kafka_topic := Some kafka_topic;
                    value_format := Some value_format;
                    conditions := Some conditions;
                    partition_by := Some partition_by;
                    kwargs := kwargs |}).

End Methods.

End SimplifiedAPI.

(* ================================================================= *)
(** ** Worlds to run the methods in *)

(** A world that counts invocations on the side: [counted function] runs
    [function] in the world underneath and adds one to the counter. *)
#[global] Instance Counting_Env {W : Type} `{Env W} : Env (W * nat) := {
  requests_request req wn :=
    let '(r, w') := requests_request req (fst wn) in (r, (w', snd wn));
  elapse secs wn := (elapse secs (fst wn), snd wn);
  bytes_decode := bytes_decode (W:=W);
  json_loads := json_loads (W:=W)
}.

Definition counted {W Args A : Type} (function : Args -> M W A)
  : Args -> M (W * nat) A :=
  fun args wn =>
    let '(r, w') := function args (fst wn) in (r, (w', S (snd wn))).

(** A scripted network, in the manner of a test double: the replies the
    server will give to the requests to come, in order, and a log of what
    the client did. *)
Module Scripted.

Inductive reply : Type :=
| Responds (r : Response)
| Fails (e : exn).

Inductive event : Type :=
| Sent (req : Request)
| Slept (secs : Z).

Record world : Type := { pending : list reply; log : list event }.

Definition send (req : Request) (w : world) : result Response * world :=
  let log' := (log w ++ [Sent req])%list in
  match pending w with
  | [] =>
      (Raise (mk_exn ConnectionError [VStr "connection refused"]),
       {| pending := []; log := log' |})
  | Responds r :: rest => (Ok r, {| pending := rest; log := log' |})
  | Fails e :: rest => (Raise e, {| pending := rest; log := log' |})
  end.

(** The scripted runtime decodes with the codecs of [Codec] and reads
    JSON with [Json.loads]. *)
#[global] Instance world_Env : Env world := {
  requests_request := send;
  elapse secs w := {| pending := pending w; log := (log w ++ [Slept secs])%list |};
  bytes_decode := Codec.decode;
  json_loads := Json.loads
}.

Definition is_sent (e : event) : bool :=
  match e with Sent _ => true | Slept _ => false end.

(** The number of requests sent, and the pauses taken, in a log. *)
Definition requests_sent (w : world) : nat :=
  List.length (filter is_sent (log w)).

Definition pauses (w : world) : list Z :=
  flat_map (fun e => match e with Slept d => [d] | Sent _ => [] end) (log w).

(** A response given whole, as a server that answers in one piece:
    the status code, the body, and what [json()] makes of it. *)
Definition response (code : Z) (body : string) (doc : result value)
  : Response :=
  {| status_code := code;
     content := list_byte_of_string body;
     json := doc;
     iter_content := fun _ => ([list_byte_of_string body], None) |}.

(** A streaming response that arrives in the given chunks. *)
Definition streaming (code : Z) (chunks : list string) (doc : result value)
  : Response :=
  {| status_code := code;
     content := list_byte_of_string (join "" chunks);
     json := doc;
     iter_content := fun _ => (map list_byte_of_string chunks, None) |}.

Definition timed_out : reply := Fails (mk_exn ReadTimeout [VStr "Read timed out."]).

End Scripted.

(* ================================================================= *)
(** ** Vocabulary of the properties *)

(** The attempts of a retried call.  [attempt_world w i] is the world in
    which attempt [i] (counted from 0) starts when the attempts before it
    were all caught: each of them has run, and a pause of [delay] has
    followed each.  [attempt_outcome] is what the attempt returns or
    raises there, [world_after] the world it leaves. *)
Section Attempts.

Context {W : Type} `{Env W} {Args : Type}.
Variable function : Args -> M W value.
Variable args : Args.
Variable delay : Z.

Fixpoint attempt_world (w : W) (i : nat) : W :=
  match i with
  | O => w
  | S j => elapse delay (snd (function args (attempt_world w j)))
  end.

Definition attempt_outcome (w : W) (i : nat) : result value :=
  fst (function args (attempt_world w i)).

Definition world_after (w : W) (i : nat) : W :=
  snd (function args (attempt_world w i)).

End Attempts.

Module Examples.

Import Scripted.

Definition quoted (s : string) : string := str1 dquote ++ s ++ str1 dquote.

(** The engine's reply to a statement it has taken: one entry with a
    command status. *)
Definition status_reply (status message : string) : value :=
  VList
    [VDict
       [("currentStatus",
         VDict
           [("statementText", VStr "CREATE STREAM s AS SELECT * FROM t;");
            ("commandId", VStr "stream/S/create");
            ("commandStatus",
             VDict [("status", VStr status); ("message", VStr message)])])]].

(** The engine's reply to a statement it has refused: one error entry. *)
Definition error_reply (message : string) : value :=
  VList
    [VDict
       [("error",
         VDict
           [("statementText", VStr "CREATE STREAM s AS SELECT * FROM t;");
            ("errorMessage",
             VDict [("message", VStr message); ("stackTrace", VList [])])])]].

Definition ping : Request :=
  {| req_method := "get";
     req_url := "http://localhost:8088/info";
     req_data := "";
     req_timeout := VInt 5;
     req_headers := [];
     req_stream := false |}.

(** An operation to retry: it sends one request and returns the status
    code of the response. *)
Definition probe (_ : unit) : M world value :=
  r <- requests_request ping ;;
  ret (VInt (status_code r)).

Definition refused : reply :=
  Fails (mk_exn ValueError [VStr "not a retryable kind"]).

Definition script (replies : list reply) : world :=
  {| pending := replies; log := [] |}.

(** A statement builder to run the examples with. *)
Definition build (_ : list (string * value)) : result string :=
  Ok "CREATE STREAM s AS SELECT * FROM t".

Definition client : BaseAPI.self := SimplifiedAPI.__init__ "http://localhost:8088" [].

(** A client built with its own retry settings: two attempts, no pause. *)
Definition tuned : BaseAPI.self :=
  SimplifiedAPI.__init__ "http://localhost:8088"
    [("max_retries", VInt 2); ("delay", VInt 0)].

(** The request that [ksql] sends for the statement of [build]. *)
Definition ksql_request : Request :=
  {| req_method := "post";
     req_url := "http://localhost:8088/ksql";
     req_data :=
       Json.dumps
         (VDict [("ksql", VStr "CREATE STREAM s AS SELECT * FROM t;");
                 ("streamsProperties", VDict [])]);
     req_timeout := VInt 5;
     req_headers :=
       [("Accept", "application/json"); ("Content-Type", "application/json")];
     req_stream := false |}.

(** A chunk of a streamed body holding one row: the object with the one
    key [a] and the number written in [n]. *)
Definition row_chunk (n : string) : string := "{" ++ quoted "a" ++ ":" ++ n ++ "}".

(** The body of the streaming example: a newline, a row, a newline, a
    row. *)
Definition row_chunks : list string :=
  [str1 newline; row_chunk "1"; str1 newline; row_chunk "2"].

(** A response whose body is the document [doc] written out by
    [json.dumps]; [json()] reads the document back from it. *)
Definition document (code : Z) (doc : value) : Response :=
  Scripted.response code (Json.dumps doc) (Ok doc).

(** A response whose body is no JSON document. *)
Definition unavailable : Response :=
  Scripted.response 503 "Service Unavailable" (Json.error "Expecting value").

(** The streaming example as a response.  Its body as a whole is more
    than one JSON document. *)
Definition rows (code : Z) : Response :=
  Scripted.streaming code row_chunks (Json.error "Extra data").

End Examples.

(** A world that keeps the trace of a retried call on the side: when the
    operation was invoked, and when the wrapper paused and for how long. *)
Inductive step : Type :=
| Invoked
| Paused (secs : Z).

#[global] Instance Tracing_Env {W : Type} `{Env W} : Env (W * list step) := {
  requests_request req wt :=
    let '(r, w') := requests_request req (fst wt) in (r, (w', snd wt));
  elapse secs wt := (elapse secs (fst wt), (snd wt ++ [Paused secs])%list);
  bytes_decode := bytes_decode (W:=W);
  json_loads := json_loads (W:=W)
}.

Definition traced {W Args A : Type} (function : Args -> M W A)
  : Args -> M (W * list step) A :=
  fun args wt =>
    let '(r, w') := function args (fst wt) in
    (r, (w', (snd wt ++ [Invoked])%list)).

(** The trace of [n] attempts: the first at once, each later one after a
    pause of [delay]. *)
Fixpoint attempts_trace (delay : Z) (n : nat) : list step :=
  match n with
  | O => []
  | S O => [Invoked]
  | S m => (attempts_trace delay m ++ [Paused delay; Invoked])%list
  end.

(** A step of the scripted world that sends at most one request and takes
    no pause. *)
Definition quiet_step (w w' : Scripted.world) : Prop :=
  Scripted.log w' = Scripted.log w \/
  exists req, Scripted.log w' = (Scripted.log w ++ [Scripted.Sent req])%list.

(** The request that [ksql] sends for a validated statement and no session
    properties. *)
Definition statement_request (s : BaseAPI.self) (validated : string)
  : Request :=
  {| req_method := "post";
     req_url := BaseAPI.url s ++ "/ksql";
     req_data :=
       Json.dumps (VDict [("ksql", VStr validated);
                          ("streamsProperties", VDict [])]);
     req_timeout := BaseAPI.timeout s;
     req_headers :=
       [("Accept", "application/json"); ("Content-Type", "application/json")];
     req_stream := false |}.

(** The keywords that the calls of lines 169 and 205 write out; extra
    keyword arguments of [create_stream_as] pass through both calls when
    they repeat none of them. *)
Definition create_as_keywords : list string :=
  ["sql_type"; "table_type"; "table_name"; "select_columns"; "src_table";
   "kafka_topic"; "value_format"; "conditions"; "partition_by"].

Definition extra_keywords (kwargs : list (string * value)) : Prop :=
  forall k, In k (map fst kwargs) -> ~ In k create_as_keywords.

(* ================================================================= *)
(** * Properties *)

Import BaseAPI.

(* ----------------------------------------------------------------- *)
(** ** Facts about texts *)

Lemma append_assoc (a b c : string) : (a ++ b) ++ c = a ++ (b ++ c).
Proof.
  induction a as [|x a IH]; simpl; [reflexivity | now rewrite IH].
Qed.

Lemma append_empty_r (a : string) : a ++ "" = a.
Proof.
  induction a as [|x a IH]; simpl; [reflexivity | now rewrite IH].
Qed.

Lemma append_nonempty (a : string) (c : ascii) : a ++ str1 c <> "".
Proof.
  destruct a; discriminate.
Qed.

Lemma last_char_snoc (p : string) (c : ascii) :
  last_char (p ++ str1 c) = Some c.
Proof.
  induction p as [|x p IH]; [reflexivity|].
  change (String x p ++ str1 c) with (String x (p ++ str1 c)).
  simpl. rewrite IH.
  destruct (p ++ str1 c) eqn:E; [|reflexivity].
  now apply append_nonempty in E.
Qed.

Lemma last_char_inv (s : string) (c : ascii) :
  last_char s = Some c -> exists p, s = p ++ str1 c.
Proof.
  induction s as [|x s IH]; [discriminate|].
  destruct s as [|y s].
  - intros [= ->]. now exists "".
  - intros Hl. destruct (IH Hl) as [p Hp].
    exists (String x p). simpl. now rewrite <- Hp.
Qed.

Lemma last_char_nonempty (s : string) :
  s <> "" -> exists c, last_char s = Some c.
Proof.
  induction s as [|x s IH]; [congruence|]. intros _.
  destruct s as [|y s]; [now exists x|].
  destruct IH as [c Hc]; [discriminate|]. now exists c.
Qed.

Lemma snoc_inj (a b : string) (c d : ascii) :
  a ++ str1 c = b ++ str1 d -> a = b /\ c = d.
Proof.
  revert b. induction a as [|x a IH]; intros [|y b]; simpl.
  - now intros [= ->].
  - intros [= _ E]. symmetry in E. now apply append_nonempty in E.
  - intros [= _ E]. now apply append_nonempty in E.
  - intros [= -> E]. destruct (IH _ E) as [-> ->]. now split.
Qed.

(** What the validator does, by the last character of its input. *)
Lemma validate_by_last_char (s : string) :
  _validate_sql_string s =
  match last_char s with
  | None => Raise (mk_exn InvalidQueryError [VStr s])
  | Some c => if Ascii.eqb c ";" then Ok s else Ok (s ++ ";")
  end.
Proof.
  unfold _validate_sql_string.
  destruct s as [|x s]; [reflexivity|].
  destruct (last_char_nonempty (String x s)) as [c Hc]; [discriminate|].
  rewrite Hc. change (0 <? _)%nat with true. cbv iota.
  now destruct (Ascii.eqb c ";").
Qed.

(* ----------------------------------------------------------------- *)
(** ** The statement validator *)

(** C1. On the empty text the validator raises [InvalidQueryError] (the
    spec's [InvalidStatementError]); on a non-empty text that does not end
    in [;] it returns the text with one [;] appended; on a text that ends
    in [;] it returns the text itself. *)
Theorem validate_sql_string_cases (s : string) :
  (s = "" ->
   _validate_sql_string s = Raise (mk_exn InvalidQueryError [VStr ""])) /\
  (s <> "" -> (forall p, s <> p ++ ";") ->
   _validate_sql_string s = Ok (s ++ ";")) /\
  (forall p, s = p ++ ";" -> _validate_sql_string s = Ok s).
Proof.
  rewrite validate_by_last_char. repeat split.
  - now intros ->.
  - intros Hne Hno. destruct (last_char_nonempty s Hne) as [c Hc].
    rewrite Hc. destruct (Ascii.eqb_spec c ";") as [-> | _]; [|reflexivity].
    destruct (last_char_inv _ _ Hc) as [p Hp]. now destruct (Hno p).
  - intros p ->. change ";" with (str1 ";"). now rewrite last_char_snoc.
Qed.

Lemma validate_sql_string_cases_witness :
  _validate_sql_string "" = Raise (mk_exn InvalidQueryError [VStr ""]) /\
  _validate_sql_string "SHOW STREAMS" = Ok "SHOW STREAMS;" /\
  _validate_sql_string "SHOW STREAMS;" = Ok "SHOW STREAMS;".
Proof.
  split; [|split].
  - apply (proj1 (validate_sql_string_cases "")). reflexivity.
  - apply (proj1 (proj2 (validate_sql_string_cases "SHOW STREAMS"))).
    + discriminate.
    + intros p E. change "SHOW STREAMS" with ("SHOW STREAM" ++ str1 "S") in E.
      change ";" with (str1 ";") in E.
      apply snoc_inj in E. destruct E as [_ E]. discriminate.
  - apply (proj2 (proj2 (validate_sql_string_cases "SHOW STREAMS;"))
             "SHOW STREAMS").
    reflexivity.
Defined.

(** C2, as the code has it.  For a non-empty input the validator returns
    the input itself or the input with one [;] appended, and the result
    ends in [;]; an input that already ends in [;] is returned as it is,
    so no second separator is ever added, and the result ends in [;;]
    exactly when the input already did. *)
Theorem validate_sql_string_terminated (s : string) :
  s <> "" ->
  exists out,
    _validate_sql_string s = Ok out /\
    (out = s \/ out = s ++ ";") /\
    (exists p, out = p ++ ";") /\
    ((exists p, s = p ++ ";") -> out = s) /\
    ((exists p, out = p ++ ";;") <-> (exists p, s = p ++ ";;")).
Proof.
  intros Hne. rewrite validate_by_last_char.
  destruct (last_char_nonempty s Hne) as [c Hc]. rewrite Hc.
  destruct (last_char_inv _ _ Hc) as [p Hp].
  destruct (Ascii.eqb_spec c ";") as [-> | Hc'].
  - exists s. repeat split; auto. now exists p.
  - exists (s ++ ";"). repeat split; auto.
    + now exists s.
    + intros [p' E]. exfalso. apply Hc'.
      rewrite Hp in E. change ";" with (str1 ";") in E.
      now apply snoc_inj in E.
    + intros [p' E]. exfalso. apply Hc'.
      change ";;" with (";" ++ str1 ";") in E. rewrite <- append_assoc in E.
      change (s ++ ";") with (s ++ str1 ";") in E.
      apply snoc_inj in E. destruct E as [E _].
      rewrite Hp in E. change ";" with (str1 ";") in E.
      now apply snoc_inj in E.
    + intros [p' E]. exfalso. apply Hc'.
      change ";;" with (";" ++ str1 ";") in E. rewrite <- append_assoc in E.
      rewrite Hp in E. now apply snoc_inj in E.
Qed.

Lemma validate_sql_string_terminated_witness :
  exists out,
    _validate_sql_string "SELECT 1" = Ok out /\
    (out = "SELECT 1" \/ out = "SELECT 1" ++ ";") /\
    (exists p, out = p ++ ";") /\
    ((exists p, "SELECT 1" = p ++ ";") -> out = "SELECT 1") /\
    ((exists p, out = p ++ ";;") <-> (exists p, "SELECT 1" = p ++ ";;")).
Proof.
  apply (validate_sql_string_terminated "SELECT 1"). discriminate.
Defined.

(** C2, as the spec words it, fails: a non-empty input that ends in two
    separators comes back unchanged, so the result ends in two. *)
Lemma validate_sql_string_keeps_double_separator :
  "SELECT 1;;" <> "" /\
  exists out,
    _validate_sql_string "SELECT 1;;" = Ok out /\
    exists p, out = p ++ ";;".
Proof.
  split; [discriminate|].
  exists "SELECT 1;;". split; [reflexivity|]. now exists "SELECT 1".
Qed.

(* ----------------------------------------------------------------- *)
(** ** Searching a text *)

Lemma startswith_app_l (a b needle : string) :
  startswith a needle = true -> startswith (a ++ b) needle = true.
Proof.
  revert a. induction needle as [|x n IH]; intros a.
  { intros _. now destruct (a ++ b). }
  destruct a as [|y a]; simpl; [discriminate|].
  intros E. apply andb_true_iff in E. destruct E as [E1 E2].
  now rewrite E1, (IH _ E2).
Qed.

Lemma contains_cons (needle : string) (c : ascii) (s : string) :
  contains needle s = true -> contains needle (String c s) = true.
Proof.
  intros E. simpl. rewrite E. apply orb_true_r.
Qed.

Lemma contains_app_r (needle p s : string) :
  contains needle s = true -> contains needle (p ++ s) = true.
Proof.
  intros E. induction p as [|x p IH]; [exact E|].
  now apply contains_cons.
Qed.

Lemma contains_app_l (needle a b : string) :
  contains needle a = true -> contains needle (a ++ b) = true.
Proof.
  induction a as [|x a IH].
  - destruct needle; [now destruct b | discriminate].
  - intros E.
    change (contains needle (String x a))
      with (startswith (String x a) needle || contains needle a) in E.
    change (contains needle (String x a ++ b))
      with (startswith (String x a ++ b) needle || contains needle (a ++ b)).
    apply orb_true_iff in E. apply orb_true_iff. destruct E as [E | E].
    + left. now apply startswith_app_l.
    + right. now apply IH.
Qed.

Lemma contains_inside (needle p mid s : string) :
  contains needle mid = true -> contains needle (p ++ mid ++ s) = true.
Proof.
  intros E. apply contains_app_r. now apply contains_app_l.
Qed.

Lemma join_inside (sep x : string) (parts : list string) :
  In x parts -> exists p s, join sep parts = p ++ x ++ s.
Proof.
  induction parts as [|y parts IH]; [contradiction|].
  intros [-> | Hin].
  - destruct parts as [|z parts].
    + exists "", "". simpl. now rewrite append_empty_r.
    + exists "", (sep ++ join sep (z :: parts)). reflexivity.
  - destruct (IH Hin) as (p & s & E).
    destruct parts as [|z parts]; [contradiction|].
    exists (y ++ sep ++ p), s.
    change (join sep (y :: z :: parts)) with (y ++ sep ++ join sep (z :: parts)).
    rewrite E. now rewrite !append_assoc.
Qed.

(* ----------------------------------------------------------------- *)
(** ** Dictionaries and their printed form *)

Lemma dict_get_In (key : string) (entries : list (string * value)) (x : value) :
  dict_get key entries = Some x -> In (key, x) entries.
Proof.
  induction entries as [|[k y] entries IH]; simpl; [discriminate|].
  destruct (String.eqb_spec k key) as [-> | _].
  - intros [= ->]. now left.
  - intros E. right. now apply IH.
Qed.

Lemma getitem_str_inv (v : value) (key : string) (x : value) :
  getitem_str v key = Ok x ->
  exists entries, v = VDict entries /\ dict_get key entries = Some x.
Proof.
  destruct v; try discriminate. simpl.
  destruct (dict_get key entries) eqn:E; [|discriminate].
  intros [= ->]. now exists entries.
Qed.

(** The printed form of a dictionary shows each key and each value. *)
Lemma repr_dict_inside (key : string) (entries : list (string * value))
  (x : value) :
  dict_get key entries = Some x ->
  exists p s, repr (VDict entries) = p ++ (repr_text key ++ ": " ++ repr x) ++ s.
Proof.
  intros E. apply dict_get_In in E.
  destruct (join_inside ", " (repr_text key ++ ": " ++ repr x)
              (map (fun '(k, y) => repr_text k ++ ": " ++ repr y) entries))
    as (p & s & Hj).
  { apply in_map_iff. exists (key, x). now split. }
  exists ("{" ++ p), (s ++ "}").
  change (repr (VDict entries))
    with ("{" ++ join ", "
                   (map (fun '(k, y) => repr_text k ++ ": " ++ repr y) entries)
              ++ "}").
  rewrite Hj. now rewrite !append_assoc.
Qed.

Lemma contains_repr_dict_key (needle key : string)
  (entries : list (string * value)) (x : value) :
  dict_get key entries = Some x ->
  contains needle (repr_text key) = true ->
  contains needle (repr (VDict entries)) = true.
Proof.
  intros E Hk. destruct (repr_dict_inside _ _ _ E) as (p & s & ->).
  apply contains_inside. now apply contains_app_l.
Qed.

Lemma contains_repr_dict_value (needle key : string)
  (entries : list (string * value)) (x : value) :
  dict_get key entries = Some x ->
  contains needle (repr x) = true ->
  contains needle (repr (VDict entries)) = true.
Proof.
  intros E Hx. destruct (repr_dict_inside _ _ _ E) as (p & s & ->).
  apply contains_inside. rewrite <- append_assoc. now apply contains_app_r.
Qed.

(** An entry with a [commandStatus] section under [currentStatus] shows
    the word [commandStatus] when printed. *)
Lemma command_status_section_shows (first current command : value) :
  getitem_str first "currentStatus" = Ok current ->
  getitem_str current "commandStatus" = Ok command ->
  contains "commandStatus" (str first) = true.
Proof.
  intros H1 H2.
  apply getitem_str_inv in H1. destruct H1 as (d1 & -> & G1).
  apply getitem_str_inv in H2. destruct H2 as (d2 & -> & G2).
  change (str (VDict d1)) with (repr (VDict d1)).
  apply (contains_repr_dict_value _ _ _ _ G1).
  apply (contains_repr_dict_key _ _ _ _ G2).
  reflexivity.
Qed.

Lemma eq_text_true (v : value) (s : string) :
  eq_text v s = true <-> v = VStr s.
Proof.
  destruct v; simpl; try (split; [discriminate | discriminate]).
  split.
  - intros E. apply String.eqb_eq in E. now subst.
  - intros [= ->]. apply String.eqb_refl.
Qed.

(* ----------------------------------------------------------------- *)
(** ** The response interpreter *)

(** C3. When the first entry of the response has a command-status section
    (under [currentStatus], as the code reads it) with a status field:
    if the status is ["SUCCESS"] the interpreter returns [True]; if it is
    anything else the interpreter raises [CreateError] with the section's
    message, as it is, for argument. *)
Theorem parse_ksql_res_command_status
  (r first current command status : value) (error : exn_class) :
  getitem_int r 0 = Ok first ->
  getitem_str first "currentStatus" = Ok current ->
  getitem_str current "commandStatus" = Ok command ->
  getitem_str command "status" = Ok status ->
  (status = VStr "SUCCESS" -> _parse_ksql_res r error = Ok (VBool true)) /\
  (status <> VStr "SUCCESS" ->
   forall message, getitem_str command "message" = Ok message ->
   _parse_ksql_res r error = Raise (mk_exn CreateError [message])).
Proof.
  intros H0 H1 H2 H3. unfold _parse_ksql_res.
  rewrite H0. cbn [Py.bind].
  rewrite (command_status_section_shows _ _ _ H1 H2).
  rewrite H1. cbn [Py.bind]. rewrite H2. cbn [Py.bind].
  rewrite H3. cbn [Py.bind]. split.
  - intros ->. reflexivity.
  - intros Hs message Hm.
    destruct (eq_text status "SUCCESS") eqn:E.
    + now apply eq_text_true in E.
    + now rewrite Hm.
Qed.

Lemma parse_ksql_res_command_status_witness :
  _parse_ksql_res (Examples.status_reply "SUCCESS" "Stream created") CreateError
    = Ok (VBool true) /\
  _parse_ksql_res (Examples.status_reply "ERROR" "Topic is missing") CreateError
    = Raise (mk_exn CreateError [VStr "Topic is missing"]).
Proof.
  split.
  - eapply (proj1 (parse_ksql_res_command_status
                     (Examples.status_reply "SUCCESS" "Stream created")
                     _ _ _ _ CreateError
                     eq_refl eq_refl eq_refl eq_refl)).
    reflexivity.
  - eapply (proj2 (parse_ksql_res_command_status
                     (Examples.status_reply "ERROR" "Topic is missing")
                     _ _ _ _ CreateError
                     eq_refl eq_refl eq_refl eq_refl)).
    + discriminate.
    + reflexivity.
Defined.

Lemma getitem_str_raises (v : value) (key : string) (e : exn) :
  getitem_str v key = Raise e ->
  exn_cls e = KeyError \/ exn_cls e = TypeError.
Proof.
  destruct v; simpl; try (intros [= <-]; now right).
  destruct (dict_get key entries); [discriminate|].
  intros [= <-]. now left.
Qed.

(** The sibling path: an error entry whose printed form does not show the
    word [commandStatus] is reported as [CreateError] with the nested
    message after ["Message: "]. *)
Lemma parse_ksql_res_error_entry
  (r first err error_message : value) (message : string) (error : exn_class) :
  getitem_int r 0 = Ok first ->
  contains "commandStatus" (str first) = false ->
  getitem_str first "error" = Ok err ->
  getitem_str err "errorMessage" = Ok error_message ->
  getitem_str error_message "message" = Ok (VStr message) ->
  _parse_ksql_res r error
    = Raise (mk_exn CreateError [VStr ("Message: " ++ message)]).
Proof.
  intros H0 Hc H1 H2 H3. unfold _parse_ksql_res.
  rewrite H0. cbn [Py.bind]. rewrite Hc.
  rewrite H1. cbn [Py.bind]. rewrite H2. cbn [Py.bind].
  rewrite H3. reflexivity.
Qed.

(** C4 fails on the code.  This reply is an error entry, with no
    command-status section; its message mentions [commandStatus], so the
    interpreter looks for a command status and raises [KeyError] instead
    of [CreateError] with ["Message: ..."]. *)
Theorem parse_ksql_res_error_entry_lost :
  let r := Examples.error_reply "Could not read commandStatus of the statement" in
  (exists first err error_message,
      getitem_int r 0 = Ok first /\
      getitem_str first "error" = Ok err /\
      getitem_str err "errorMessage" = Ok error_message /\
      getitem_str error_message "message"
        = Ok (VStr "Could not read commandStatus of the statement") /\
      exists e, getitem_str first "currentStatus" = Raise e) /\
  _parse_ksql_res r CreateError = Raise (mk_exn KeyError [VStr "currentStatus"]) /\
  _parse_ksql_res r CreateError
    <> Raise (mk_exn CreateError
                [VStr "Message: Could not read commandStatus of the statement"]).
Proof.
  split; [|split].
  - do 3 eexists. repeat split; try reflexivity. eexists. reflexivity.
  - reflexivity.
  - discriminate.
Qed.

(** C10. The interpreter chooses its branch by looking for the word
    [commandStatus] in the printed form of the first entry, and by nothing
    else.  When the word shows, the outcome is that of reading the command
    status under [currentStatus]; when it does not, the outcome is that of
    reading the message under [error].  So when the word shows but the
    entry has no command-status section to read, the interpreter fails
    with the error of the failed field access, a [KeyError] or a
    [TypeError], and not with [CreateError]. *)
Theorem parse_ksql_res_decides_by_text
  (r first : value) (error : exn_class) :
  getitem_int r 0 = Ok first ->
  (contains "commandStatus" (str first) = true ->
   _parse_ksql_res r error
     = (let? current := getitem_str first "currentStatus" in
        let? command := getitem_str current "commandStatus" in
        let? status := getitem_str command "status" in
        if eq_text status "SUCCESS" then Ok (VBool true)
        else
          let? message := getitem_str command "message" in
          Raise (mk_exn CreateError [message]))) /\
  (contains "commandStatus" (str first) = false ->
   _parse_ksql_res r error
     = (let? err := getitem_str first "error" in
        let? error_message := getitem_str err "errorMessage" in
        let? message := getitem_str error_message "message" in
        let? text := text_add "Message: " message in
        Raise (mk_exn CreateError [VStr text]))) /\
  (forall e,
     contains "commandStatus" (str first) = true ->
     (let? current := getitem_str first "currentStatus" in
      getitem_str current "commandStatus") = Raise e ->
     _parse_ksql_res r error = Raise e /\
     (exn_cls e = KeyError \/ exn_cls e = TypeError) /\
     exn_cls e <> CreateError).
Proof.
  intros H0. unfold _parse_ksql_res. rewrite H0. cbn [Py.bind].
  split; [|split].
  - intros ->.
    destruct (getitem_str first "currentStatus") as [current|e1];
      cbn [Py.bind]; [|reflexivity].
    destruct (getitem_str current "commandStatus") as [command|e2];
      cbn [Py.bind]; [|reflexivity].
    reflexivity.
  - intros ->. reflexivity.
  - intros e Hc Hs. rewrite Hc.
    assert (Hk : exn_cls e = KeyError \/ exn_cls e = TypeError).
    { destruct (getitem_str first "currentStatus") as [current|e1] eqn:E1;
        cbn [Py.bind] in Hs.
      - now apply getitem_str_raises in Hs.
      - injection Hs as <-. now apply getitem_str_raises in E1. }
    split; [|split].
    + destruct (getitem_str first "currentStatus") as [current|e1];
        cbn [Py.bind] in *; [|exact Hs].
      now rewrite Hs.
    + exact Hk.
    + destruct Hk as [-> | ->]; discriminate.
Qed.

Lemma parse_ksql_res_decides_by_text_witness :
  _parse_ksql_res (Examples.error_reply "Statement has no commandStatus yet")
                  CreateError
    = Raise (mk_exn KeyError [VStr "currentStatus"]) /\
  _parse_ksql_res (Examples.error_reply "Topic is missing") CreateError
    = Raise (mk_exn CreateError [VStr "Message: Topic is missing"]).
Proof.
  split.
  - exact (proj1
             (proj2 (proj2 (parse_ksql_res_decides_by_text
                              (Examples.error_reply
                                 "Statement has no commandStatus yet")
                              _ CreateError eq_refl))
                _ eq_refl eq_refl)).
  - exact (proj1 (proj2 (parse_ksql_res_decides_by_text
                           (Examples.error_reply "Topic is missing")
                           _ CreateError eq_refl))
             eq_refl).
Defined.

(* ----------------------------------------------------------------- *)
(** ** The retry policy *)

Section RetryFacts.

Context {W : Type} `{Env W} {Args : Type}.
Variable exceptions : list exn_class.
Variable delay : Z.
Variable function : Args -> M W value.
Variable args : Args.
Variable w0 : W.
Hypothesis delay_nonneg : 0 <= delay.

Local Abbreviation outcome := (attempt_outcome function args delay w0).
Local Abbreviation after := (world_after function args delay w0).
Local Abbreviation loop := (inner_loop exceptions delay (counted function) args).

(** The world in which iteration [c] of the loop is entered: before the
    pause, with [c] invocations counted. *)
Local Abbreviation entry c :=
  (match c with O => w0 | S j => after j end, c).

(** One iteration of the loop, in the world that counts invocations. *)
Lemma inner_loop_iteration (c : nat) (rest : list Z) (fe : option exn) :
  loop (Z.of_nat c :: rest) fe (entry c) =
  match outcome c with
  | Ok v => (Ok v, (after c, S c))
  | Raise e =>
      if isinstance e exceptions
      then loop rest (Some e) (entry (S c))
      else (Raise e, (after c, S c))
  end.
Proof.
  unfold attempt_outcome, world_after.
  cbn [inner_loop]. unfold mbind.
  destruct c as [|j].
  - cbn [Z.of_nat Z.ltb Z.compare ret attempt_world].
    unfold counted. cbn [fst snd].
    destruct (function args w0) as [[v|e] w']; cbn [fst snd]; reflexivity.
  - replace (0 <? Z.of_nat (S j)) with true by (symmetry; apply Z.ltb_lt; lia).
    unfold time_sleep.
    replace (delay <? 0) with false by (symmetry; apply Z.ltb_ge; lia).
    cbn [elapse Counting_Env fst snd attempt_world].
    unfold counted, world_after. cbn [fst snd].
    destruct (function args
                (elapse delay (snd (function args (attempt_world function args delay w0 j)))))
      as [[v|e] w']; cbn [fst snd]; reflexivity.
Qed.

(** While attempts are caught the loop goes on: after [d] caught attempts
    from iteration [c], it is at iteration [c + d], holding the exception
    caught last. *)
Lemma inner_loop_caught (d : nat) :
  forall (c n : nat) (fe : option exn),
    (forall i, (c <= i < c + d)%nat ->
               exists e, outcome i = Raise e /\ isinstance e exceptions = true) ->
    exists fe',
      loop (map Z.of_nat (seq c (d + n))) fe (entry c)
        = loop (map Z.of_nat (seq (c + d) n)) fe' (entry (c + d)%nat) /\
      (d = O -> fe' = fe) /\
      (forall j, d = S j -> exists e, outcome (c + j)%nat = Raise e /\ fe' = Some e).
Proof.
  induction d as [|d IH]; intros c n fe Hall.
  - exists fe. rewrite Nat.add_0_r.
    split; [reflexivity | split; [reflexivity | discriminate]].
  - destruct (Hall c ltac:(lia)) as (e & He & Hr).
    destruct (IH (S c) n (Some e)) as (fe' & Hloop & Hz & Hs).
    { intros i Hi. apply Hall. lia. }
    exists fe'. split; [|split; [discriminate|]].
    + change (map Z.of_nat (seq c (S d + n)))
        with (Z.of_nat c :: map Z.of_nat (seq (S c) (d + n))).
      rewrite inner_loop_iteration, He, Hr.
      rewrite Hloop. now replace (S c + d)%nat with (c + S d)%nat by lia.
    + intros j [= <-]. destruct d as [|d'].
      * rewrite Nat.add_0_r. exists e. split; [exact He|]. now apply Hz.
      * destruct (Hs d' eq_refl) as (e' & He' & ->).
        exists e'. split; [|reflexivity].
        now replace (c + S d')%nat with (S c + d')%nat by lia.
Qed.

Lemma range_seq (max_retries : Z) :
  range max_retries = map Z.of_nat (seq 0 (Z.to_nat max_retries)).
Proof. reflexivity. Qed.

(** An attempt that returns, after [k] caught ones. *)
Lemma retry_success (max_retries : Z) (k : nat) (v : value) :
  Z.of_nat k < max_retries ->
  (forall i, (i < k)%nat ->
             exists e, outcome i = Raise e /\ isinstance e exceptions = true) ->
  outcome k = Ok v ->
  retry exceptions (Some delay) (Some max_retries) (counted function) args
        (w0, O)
    = (Ok v, (after k, S k)).
Proof.
  intros Hk Hall Hok. unfold retry. cbn [or_default]. rewrite range_seq.
  replace (Z.to_nat max_retries) with (k + S (Z.to_nat max_retries - S k))%nat
    by lia.
  destruct (inner_loop_caught k 0 (S (Z.to_nat max_retries - S k)) None)
    as (fe' & -> & _).
  { intros i Hi. apply Hall. lia. }
  cbn [Nat.add seq map]. now rewrite inner_loop_iteration, Hok.
Qed.

(** An attempt that raises an exception the policy does not catch, after
    [j] caught ones. *)
Lemma retry_uncaught (max_retries : Z) (j : nat) (e : exn) :
  Z.of_nat j < max_retries ->
  (forall i, (i < j)%nat ->
             exists e', outcome i = Raise e' /\ isinstance e' exceptions = true) ->
  outcome j = Raise e ->
  isinstance e exceptions = false ->
  retry exceptions (Some delay) (Some max_retries) (counted function) args
        (w0, O)
    = (Raise e, (after j, S j)).
Proof.
  intros Hj Hall He Hno. unfold retry. cbn [or_default]. rewrite range_seq.
  replace (Z.to_nat max_retries) with (j + S (Z.to_nat max_retries - S j))%nat
    by lia.
  destruct (inner_loop_caught j 0 (S (Z.to_nat max_retries - S j)) None)
    as (fe' & -> & _).
  { intros i Hi. apply Hall. lia. }
  cbn [Nat.add seq map]. now rewrite inner_loop_iteration, He, Hno.
Qed.

(** Every attempt caught, up to the bound. *)
Lemma retry_exhausted (max_retries : Z) (n : nat) (e : exn) :
  max_retries = Z.of_nat (S n) ->
  (forall i, (i <= n)%nat ->
             exists e', outcome i = Raise e' /\ isinstance e' exceptions = true) ->
  outcome n = Raise e ->
  retry exceptions (Some delay) (Some max_retries) (counted function) args
        (w0, O)
    = (Raise e, (after n, S n)).
Proof.
  intros -> Hall He. unfold retry. cbn [or_default]. rewrite range_seq.
  rewrite Nat2Z.id.
  replace (S n) with (S n + 0)%nat at 1 by lia.
  destruct (inner_loop_caught (S n) 0 0 None) as (fe' & -> & _ & Hlast).
  { intros i Hi. apply Hall. lia. }
  destruct (Hlast n eq_refl) as (e' & He' & ->).
  cbn [Nat.add] in He'. rewrite He in He'. injection He' as <-.
  reflexivity.
Qed.

End RetryFacts.

(** The first iteration of the loop takes no pause, so that it runs the
    same for any delay. *)
Lemma retry_first_iteration {W : Type} `{Env W} {Args : Type}
  (exceptions : list exn_class) (delay max_retries : Z)
  (function : Args -> M W value) (args : Args) (w : W) :
  0 < max_retries ->
  retry exceptions (Some delay) (Some max_retries) (counted function) args
        (w, O)
    = match attempt_outcome function args delay w 0 with
      | Ok v => (Ok v, (world_after function args delay w 0, 1%nat))
      | Raise e =>
          if isinstance e exceptions
          then inner_loop exceptions delay (counted function) args
                 (map Z.of_nat (seq 1 (Z.to_nat max_retries - 1))) (Some e)
                 (world_after function args delay w 0, 1%nat)
          else (Raise e, (world_after function args delay w 0, 1%nat))
      end.
Proof.
  intros Hm. unfold retry, range, attempt_outcome, world_after.
  cbn [or_default attempt_world].
  destruct (Z.to_nat max_retries) as [|m] eqn:Em; [lia|].
  cbn [seq map inner_loop Nat.sub]. rewrite Nat.sub_0_r. unfold mbind.
  cbn [Z.of_nat Z.ltb Z.compare ret]. unfold counted at 1. cbn [fst snd].
  destruct (function args w) as [[v|e] w']; cbn [fst snd]; reflexivity.
Qed.







(* ----------------------------------------------------------------- *)
(** ** Where the retry policy is applied *)

Lemma inner_loop_ext {W : Type} `{Env W} {A B : Type}
  (exceptions : list exn_class) (delay : Z)
  (f : A -> M W value) (g : B -> M W value) (a : A) (b : B) :
  (forall w, f a w = g b w) ->
  forall counters fe w,
    inner_loop exceptions delay f a counters fe w
      = inner_loop exceptions delay g b counters fe w.
Proof.
  intros Hfg. induction counters as [|c rest IH]; intros fe w.
  - reflexivity.
  - cbn [inner_loop]. unfold mbind.
    destruct ((if 0 <? c then time_sleep delay else ret tt) w) as [[[]|e] w1];
      [|reflexivity].
    rewrite Hfg. destruct (g b w1) as [[v|e] w2]; [reflexivity|].
    destruct (isinstance e exceptions); [apply IH | reflexivity].
Qed.

(** The policy around [_create_as]: the classes [Timeout] and
    [CreateError], a pause of one second, five attempts. *)
Lemma create_as_policy {W : Type} `{Env W}
  (build : list (string * value) -> result string) :
  SimplifiedAPI._create_as build
    = retry [Timeout; CreateError] (Some 1) (Some 5)
            (SimplifiedAPI._create_as__wrapped__ build).
Proof. reflexivity. Qed.

(** The settings [max_retries] and [delay] of the client play no part in
    [_create_as]. *)
Lemma create_as_same_for_all_settings {W : Type} `{Env W}
  (build : list (string * value) -> result string)
  (s s' : self) (a : SimplifiedAPI.create_as_args) (w : W) :
  url s = url s' -> timeout s = timeout s' ->
  SimplifiedAPI._create_as build (s, a) w
    = SimplifiedAPI._create_as build (s', a) w.
Proof.
  intros Hu Ht. unfold SimplifiedAPI._create_as, retry.
  apply inner_loop_ext. intros w1.
  unfold SimplifiedAPI._create_as__wrapped__, ksql, _request.
  now rewrite Hu, Ht.
Qed.

(** Plain create is not wrapped: when the one request it sends fails, the
    exception is the outcome of the call. *)
Lemma create_raises_at_once {W : Type} `{Env W}
  (build : list (string * value) -> result string)
  (s : self) (table_type table_name columns_type topic : value)
  (value_format : option value) (statement validated : string)
  (e : exn) (w w' : W) :
  build [("sql_type", VStr "create"); ("table_type", table_type);
         ("table_name", table_name); ("columns_type", columns_type);
         ("topic", topic);
         ("value_format", or_default value_format (VStr "JSON"))]
    = Ok statement ->
  _validate_sql_string statement = Ok validated ->
  requests_request
    {| req_method := "post";
       req_url := url s ++ "/ksql";
       req_data :=
         Json.dumps (VDict [("ksql", VStr validated);
                            ("streamsProperties", VDict [])]);
       req_timeout := timeout s;
       req_headers :=
         [("Accept", "application/json"); ("Content-Type", "application/json")];
       req_stream := false |} w = (Raise e, w') ->
  SimplifiedAPI._create build s table_type table_name columns_type topic
                        value_format w
    = (Raise e, w').
Proof.
  intros Hb Hv Hr.
  unfold SimplifiedAPI._create, ksql, _request, mbind, lift.
  rewrite Hb. cbn [or_default]. rewrite Hv.
  change (String.eqb "ksql" "query") with false. cbv iota.
  change ("/" ++ "ksql") with "/ksql".
  now rewrite Hr.
Qed.

(** C7 fails on the code.  This client is built with [max_retries = 2]
    and [delay = 0]; against a server that never answers in time,
    [create_stream_as] sends five requests, a second apart: the bound and
    the pause are the defaults of [retry], not the client's. *)
Theorem create_as_retries_with_defaults :
  let run :=
    SimplifiedAPI.create_stream_as Examples.build Examples.tuned
      (VStr "s") (VList [VStr "*"]) (VStr "t") None None None None []
      (Examples.script (repeat Scripted.timed_out 6)) in
  max_retries Examples.tuned = VInt 2 /\
  delay Examples.tuned = VInt 0 /\
  fst run = Raise (mk_exn ReadTimeout [VStr "Read timed out."]) /\
  Scripted.requests_sent (snd run) = 5%nat /\
  Scripted.pauses (snd run) = [1; 1; 1; 1].
Proof.
  vm_compute. repeat split.
Qed.

(* ----------------------------------------------------------------- *)
(** ** Buffered calls *)

(** C8. When the request of a buffered call is answered: with status 200
    the call returns what [json()] of the response returns, the body read
    as one JSON document, and raises what it raises; with any other status
    the call raises [ValueError], whose message holds the status code and
    the printed body. *)
Theorem ksql_by_status_code {W : Type} `{Env W}
  (s : self) (ksql_string validated : string)
  (streams_properties : option value) (r : Response) (w w' : W) :
  _validate_sql_string ksql_string = Ok validated ->
  requests_request
    {| req_method := "post";
       req_url := url s ++ "/ksql";
       req_data :=
         Json.dumps
           (VDict [("ksql", VStr validated);
                   ("streamsProperties",
                    or_default streams_properties (VDict []))]);
       req_timeout := timeout s;
       req_headers :=
         [("Accept", "application/json"); ("Content-Type", "application/json")];
       req_stream := false |} w = (Ok r, w') ->
  (status_code r = 200 ->
   ksql s ksql_string streams_properties w = (Requests.json r, w')) /\
  (status_code r <> 200 ->
   ksql s ksql_string streams_properties w
     = (Raise (mk_exn ValueError
                 [VStr ("Status Code: " ++ str_of_Z (status_code r) ++ "."
                        ++ str1 newline ++ "Message: "
                        ++ repr_bytes (content r))]),
        w')).
Proof.
  intros Hv Hr.
  unfold ksql, _request, mbind, lift, ret, throw.
  cbn [or_default]. rewrite Hv.
  change (String.eqb "ksql" "query") with false. cbv iota.
  change ("/" ++ "ksql") with "/ksql".
  rewrite Hr. split.
  - intros ->. cbn [Z.eqb Pos.eqb]. now destruct (Requests.json r).
  - intros Hne. apply Z.eqb_neq in Hne. now rewrite Hne.
Qed.

Lemma ksql_by_status_code_witness :
  let ok := Examples.document 200
              (Examples.status_reply "SUCCESS" "Stream created") in
  let ko := Examples.unavailable in
  ksql Examples.client "CREATE STREAM s AS SELECT * FROM t" None
       (Examples.script [Scripted.Responds ok])
    = (Ok (Examples.status_reply "SUCCESS" "Stream created"),
       {| Scripted.pending := [];
          Scripted.log := [Scripted.Sent Examples.ksql_request] |}) /\
  ksql Examples.client "CREATE STREAM s AS SELECT * FROM t" None
       (Examples.script [Scripted.Responds ko])
    = (Raise (mk_exn ValueError
                [VStr ("Status Code: 503." ++ str1 newline
                       ++ "Message: b'Service Unavailable'")]),
       {| Scripted.pending := [];
          Scripted.log := [Scripted.Sent Examples.ksql_request] |}).
Proof.
  intros ok ko. split.
  - refine (proj1 (ksql_by_status_code Examples.client
                     "CREATE STREAM s AS SELECT * FROM t"
                     "CREATE STREAM s AS SELECT * FROM t;" None ok
                     (Examples.script [Scripted.Responds ok])
                     {| Scripted.pending := [];
                        Scripted.log := [Scripted.Sent Examples.ksql_request] |}
                     _ _) _); reflexivity.
  - refine (proj2 (ksql_by_status_code Examples.client
                     "CREATE STREAM s AS SELECT * FROM t"
                     "CREATE STREAM s AS SELECT * FROM t;" None ko
                     (Examples.script [Scripted.Responds ko])
                     {| Scripted.pending := [];
                        Scripted.log := [Scripted.Sent Examples.ksql_request] |}
                     _ _) _); [reflexivity | reflexivity | discriminate].
Defined.

(* ----------------------------------------------------------------- *)
(** ** The streaming decoder *)

Lemma bytes_eqb_eq (a b : list byte) : bytes_eqb a b = true <-> a = b.
Proof.
  revert b. induction a as [|x a IH]; intros [|y b]; simpl;
    try (split; [discriminate | discriminate]); [now split|].
  rewrite andb_true_iff, IH. split.
  - intros [E ->]. apply Byte.byte_dec_bl in E. now subst.
  - intros [= -> ->]. split; [now apply Byte.byte_dec_lb | reflexivity].
Qed.

Lemma isinstance_StopIteration (e : exn) :
  isinstance e [StopIteration] = exn_class_eqb (exn_cls e) StopIteration.
Proof. now destruct e as [[] args]. Qed.

Lemma leaving_generator_not_StopIteration (e : exn) :
  exn_class_eqb (exn_cls (leaving_generator e)) StopIteration = false.
Proof.
  unfold leaving_generator. rewrite isinstance_StopIteration.
  now destruct (exn_class_eqb (exn_cls e) StopIteration) eqn:E.
Qed.

(** The first [next] of a generator whose request is answered goes on as
    the [next] of a generator running over the chunks of the response,
    with the encoding that [query] was given. *)
Lemma next_created {W : Type} `{Env W} (s : self)
  (query_string : string) (encoding : option string) (chunk_size : option Z)
  (streams_properties : option value) (r : Response)
  (chunks : list (list byte)) (ending : option exn) (w w' : W) :
  _request s "query" None (Some query_string)
           (Some (or_default streams_properties (VDict []))) w = (Ok r, w') ->
  iter_content r (or_default chunk_size 128) = (chunks, ending) ->
  next s (query s query_string encoding chunk_size streams_properties) w
    = next s (Running (or_default encoding "utf-8") chunks ending) w'.
Proof.
  intros Hr Hc. unfold query. cbn [next]. now rewrite Hr, Hc.
Qed.

(** A [next] of a running generator passes over the newline chunks and
    stops at the first chunk that is not one. *)
Lemma next_running {W : Type} `{Env W} (s : self) (encoding : string)
  (skipped rest : list (list byte)) (chunk : list byte)
  (ending : option exn) (w : W) :
  Forall (fun c => c = [byte_of_ascii newline]) skipped ->
  chunk <> [byte_of_ascii newline] ->
  next s (Running encoding (skipped ++ chunk :: rest)%list ending) w
    = match (let? text := bytes_decode (W:=W) encoding chunk in
             json_loads (W:=W) text) with
      | Ok row => (Ok row, Running encoding rest ending, w)
      | Raise e => (Raise (leaving_generator e), Finished, w)
      end.
Proof.
  intros Hs Hne. cbn [next].
  induction Hs as [|c skipped -> _ IH]; cbn [app resume].
  - destruct (bytes_eqb chunk [byte_of_ascii newline]) eqn:E.
    + now apply bytes_eqb_eq in E.
    + cbn [negb].
      now destruct (let? text := bytes_decode (W:=W) encoding chunk in
                    json_loads (W:=W) text).
  - exact IH.
Qed.



(* ================================================================= *)
(** * Further properties of the code *)

(* ----------------------------------------------------------------- *)
(** ** More on the validator and the buffered call *)

(** X1. The validator is idempotent: a text it returns is returned
    unchanged when validated again, and is never empty. *)
Theorem validate_sql_string_idempotent (s out : string) :
  _validate_sql_string s = Ok out ->
  _validate_sql_string out = Ok out /\ out <> "".
Proof.
  rewrite validate_by_last_char.
  destruct (last_char s) as [c|] eqn:Hc; [|discriminate].
  destruct (Ascii.eqb_spec c ";") as [-> | Hne]; intros [= <-].
  - split.
    + rewrite validate_by_last_char, Hc. reflexivity.
    + intros ->. discriminate.
  - split.
    + rewrite validate_by_last_char. change ";" with (str1 ";").
      now rewrite last_char_snoc.
    + apply (append_nonempty s ";").
Qed.

Lemma validate_sql_string_idempotent_witness :
  _validate_sql_string "SHOW TABLES;" = Ok "SHOW TABLES;" /\ "SHOW TABLES;" <> "".
Proof.
  apply (validate_sql_string_idempotent "SHOW TABLES"). reflexivity.
Defined.

(** X2. An empty statement never reaches the network: [_request] (also
    when the statement is left to its default), [ksql] and the first
    [next] of a [query] generator raise [InvalidQueryError] and leave the
    world as it was. *)
Theorem empty_statement_sends_nothing {W : Type} `{Env W}
  (s : self) (endpoint : string) (method : option string)
  (encoding : option string) (chunk_size : option Z)
  (streams_properties : option value) (w : W) :
  let e := mk_exn InvalidQueryError [VStr ""] in
  _request s endpoint method (Some "") streams_properties w = (Raise e, w) /\
  _request s endpoint method None streams_properties w = (Raise e, w) /\
  ksql s "" streams_properties w = (Raise e, w) /\
  next s (query s "" encoding chunk_size streams_properties) w
    = (Raise e, Finished, w).
Proof.
  repeat split.
Qed.



(** X4. [ksql] catches nothing: when the request raises (a timeout, a
    refused connection), that exception is the outcome of the call. *)
Theorem ksql_passes_transport_failure {W : Type} `{Env W}
  (s : self) (ksql_string validated : string)
  (streams_properties : option value) (e : exn) (w w' : W) :
  _validate_sql_string ksql_string = Ok validated ->
  requests_request
    {| req_method := "post";
       req_url := url s ++ "/ksql";
       req_data :=
         Json.dumps
           (VDict [("ksql", VStr validated);
                   ("streamsProperties",
                    or_default streams_properties (VDict []))]);
       req_timeout := timeout s;
       req_headers :=
         [("Accept", "application/json"); ("Content-Type", "application/json")];
       req_stream := false |} w = (Raise e, w') ->
  ksql s ksql_string streams_properties w = (Raise e, w').
Proof.
  intros Hv Hr. unfold ksql, _request, mbind, lift, ret, throw.
  cbn [or_default]. rewrite Hv.
  change (String.eqb "ksql" "query") with false. cbv iota.
  change ("/" ++ "ksql") with "/ksql". now rewrite Hr.
Qed.

Lemma ksql_passes_transport_failure_witness :
  ksql Examples.client "CREATE STREAM s AS SELECT * FROM t" None
       (Examples.script [Scripted.timed_out])
  = (Raise (mk_exn ReadTimeout [VStr "Read timed out."]),
     {| Scripted.pending := [];
        Scripted.log := [Scripted.Sent Examples.ksql_request] |}).
Proof.
  apply (ksql_passes_transport_failure Examples.client
           "CREATE STREAM s AS SELECT * FROM t"
           "CREATE STREAM s AS SELECT * FROM t;" None);
    reflexivity.
Defined.

(* ----------------------------------------------------------------- *)
(** ** More on the response interpreter *)

Lemma getitem_int_raises (v : value) (i : Z) (e : exn) :
  getitem_int v i = Raise e ->
  exn_cls e = KeyError \/ exn_cls e = IndexError \/ exn_cls e = TypeError.
Proof.
  destruct v; simpl; try (intros [= <-]; now auto).
  - destruct (norm_index i _); [destruct (nth_error _ _)|];
      try discriminate; intros [= <-]; auto.
  - destruct (norm_index i _); [destruct (nth_error _ _)|];
      try discriminate; intros [= <-]; auto.
Qed.

Lemma text_add_raises (s : string) (v : value) (e : exn) :
  text_add s v = Raise e -> exn_cls e = TypeError.
Proof.
  destruct v; simpl; try discriminate; now intros [= <-].
Qed.

Lemma getitem_int_first (first : value) (rest : list value) :
  getitem_int (VList (first :: rest)) 0 = Ok first.
Proof.
  unfold getitem_int, norm_index. cbn [Z.ltb Z.compare Z.leb andb].
  replace (0 <? Z.of_nat (List.length (first :: rest))) with true.
  - reflexivity.
  - symmetry. apply Z.ltb_lt. cbn [List.length]. lia.
Qed.

(** X5. The interpreter returns nothing but [True], and only for a
    response whose first entry has a command status, under
    [currentStatus], with the status ["SUCCESS"]. *)
Theorem parse_ksql_res_success_sound (r v : value) (error : exn_class) :
  _parse_ksql_res r error = Ok v ->
  v = VBool true /\
  exists first current command,
    getitem_int r 0 = Ok first /\
    getitem_str first "currentStatus" = Ok current /\
    getitem_str current "commandStatus" = Ok command /\
    getitem_str command "status" = Ok (VStr "SUCCESS").
Proof.
  unfold _parse_ksql_res.
  destruct (getitem_int r 0) as [first|e0]; cbn [Py.bind]; [|discriminate].
  destruct (contains "commandStatus" (str first)).
  - destruct (getitem_str first "currentStatus") as [current|e1] eqn:E1;
      cbn [Py.bind]; [|discriminate].
    destruct (getitem_str current "commandStatus") as [command|e2] eqn:E2;
      cbn [Py.bind]; [|discriminate].
    destruct (getitem_str command "status") as [status|e3] eqn:E3;
      cbn [Py.bind]; [|discriminate].
    destruct (eq_text status "SUCCESS") eqn:Es.
    + intros [= <-]. split; [reflexivity|].
      apply eq_text_true in Es. subst status.
      now exists first, current, command.
    + destruct (getitem_str command "message"); discriminate.
  - destruct (getitem_str first "error") as [err|]; cbn [Py.bind]; [|discriminate].
    destruct (getitem_str err "errorMessage") as [em|]; cbn [Py.bind]; [|discriminate].
    destruct (getitem_str em "message") as [m|]; cbn [Py.bind]; [|discriminate].
    destruct (text_add "Message: " m); discriminate.
Qed.

Lemma parse_ksql_res_success_sound_witness :
  VBool true = VBool true /\
  exists first current command,
    getitem_int (Examples.status_reply "SUCCESS" "Stream created") 0
      = Ok first /\
    getitem_str first "currentStatus" = Ok current /\
    getitem_str current "commandStatus" = Ok command /\
    getitem_str command "status" = Ok (VStr "SUCCESS").
Proof.
  apply (parse_ksql_res_success_sound
           (Examples.status_reply "SUCCESS" "Stream created") (VBool true)
           CreateError).
  reflexivity.
Defined.

(** X6. Whatever class is passed as [error], the interpreter raises only
    [CreateError], or the [KeyError], [IndexError] or [TypeError] of a
    failed access to the response. *)
Theorem parse_ksql_res_raises (r : value) (error : exn_class) (e : exn) :
  _parse_ksql_res r error = Raise e ->
  exn_cls e = CreateError \/ exn_cls e = KeyError \/
  exn_cls e = IndexError \/ exn_cls e = TypeError.
Proof.
  assert (Hs : forall v k e', getitem_str v k = Raise e' ->
            exn_cls e' = CreateError \/ exn_cls e' = KeyError \/
            exn_cls e' = IndexError \/ exn_cls e' = TypeError).
  { intros v k e' E. apply getitem_str_raises in E. tauto. }
  unfold _parse_ksql_res.
  destruct (getitem_int r 0) as [first|e0] eqn:E0; cbn [Py.bind].
  2:{ intros [= <-]. apply getitem_int_raises in E0. tauto. }
  destruct (contains "commandStatus" (str first)).
  - destruct (getitem_str first "currentStatus") as [current|e1] eqn:E1;
      cbn [Py.bind]; [|intros [= <-]; eauto].
    destruct (getitem_str current "commandStatus") as [command|e2] eqn:E2;
      cbn [Py.bind]; [|intros [= <-]; eauto].
    destruct (getitem_str command "status") as [status|e3] eqn:E3;
      cbn [Py.bind]; [|intros [= <-]; eauto].
    destruct (eq_text status "SUCCESS"); [discriminate|].
    destruct (getitem_str command "message") as [m|e4] eqn:E4;
      cbn [Py.bind]; intros [= <-]; eauto.
  - destruct (getitem_str first "error") as [err|e1] eqn:E1;
      cbn [Py.bind]; [|intros [= <-]; eauto].
    destruct (getitem_str err "errorMessage") as [em|e2] eqn:E2;
      cbn [Py.bind]; [|intros [= <-]; eauto].
    destruct (getitem_str em "message") as [m|e3] eqn:E3;
      cbn [Py.bind]; [|intros [= <-]; eauto].
    destruct (text_add "Message: " m) as [t|e4] eqn:E4;
      cbn [Py.bind]; intros [= <-]; [now left|].
    apply text_add_raises in E4. tauto.
Qed.

Lemma parse_ksql_res_raises_witness :
  let e := mk_exn KeyError [VStr "error"] in
  exn_cls e = CreateError \/ exn_cls e = KeyError \/
  exn_cls e = IndexError \/ exn_cls e = TypeError.
Proof.
  exact (parse_ksql_res_raises (VList [VDict []]) ValueError _ eq_refl).
Defined.

(** X7. Of a list of entries the interpreter reads the first only: the
    entries after it, and the class passed as [error], do not change the
    outcome. *)
Theorem parse_ksql_res_reads_first_entry_only
  (first : value) (rest rest' : list value) (error error' : exn_class) :
  _parse_ksql_res (VList (first :: rest)) error
    = _parse_ksql_res (VList (first :: rest')) error'.
Proof.
  unfold _parse_ksql_res. now rewrite !getitem_int_first.
Qed.

(** X8. A command status other than ["SUCCESS"] that carries no message
    makes the interpreter raise [KeyError('message')], not
    [CreateError]. *)
Theorem parse_ksql_res_status_without_message
  (r first current command status : value) (error : exn_class)
  (entries : list (string * value)) :
  getitem_int r 0 = Ok first ->
  getitem_str first "currentStatus" = Ok current ->
  getitem_str current "commandStatus" = Ok command ->
  getitem_str command "status" = Ok status ->
  status <> VStr "SUCCESS" ->
  command = VDict entries ->
  dict_get "message" entries = None ->
  _parse_ksql_res r error = Raise (mk_exn KeyError [VStr "message"]).
Proof.
  intros H0 H1 H2 H3 Hs -> Hm. unfold _parse_ksql_res.
  rewrite H0. cbn [Py.bind].
  rewrite (command_status_section_shows _ _ _ H1 H2).
  rewrite H1. cbn [Py.bind]. rewrite H2. cbn [Py.bind].
  rewrite H3. cbn [Py.bind].
  destruct (eq_text status "SUCCESS") eqn:E.
  - now apply eq_text_true in E.
  - cbn [getitem_str]. now rewrite Hm.
Qed.

Lemma parse_ksql_res_status_without_message_witness :
  _parse_ksql_res
    (VList [VDict [("currentStatus",
                    VDict [("commandStatus",
                            VDict [("status", VStr "ERROR")])])]])
    CreateError
  = Raise (mk_exn KeyError [VStr "message"]).
Proof.
  eapply (parse_ksql_res_status_without_message _ _ _ _ (VStr "ERROR")
            CreateError [("status", VStr "ERROR")]);
    try reflexivity.
  discriminate.
Defined.

(** X9. For an error entry whose printed form does not show the word
    [commandStatus]: a text message [m] gives [CreateError] with
    ["Message: " + m]; a message that is not a text makes the
    concatenation fail with [TypeError]. *)
Theorem parse_ksql_res_error_entry_message
  (r first err error_message message : value) (error : exn_class) :
  getitem_int r 0 = Ok first ->
  contains "commandStatus" (str first) = false ->
  getitem_str first "error" = Ok err ->
  getitem_str err "errorMessage" = Ok error_message ->
  getitem_str error_message "message" = Ok message ->
  (forall m, message = VStr m ->
     _parse_ksql_res r error
       = Raise (mk_exn CreateError [VStr ("Message: " ++ m)])) /\
  ((forall m, message <> VStr m) ->
     exists e, _parse_ksql_res r error = Raise e /\ exn_cls e = TypeError).
Proof.
  intros H0 Hc H1 H2 H3. unfold _parse_ksql_res.
  rewrite H0. cbn [Py.bind]. rewrite Hc.
  rewrite H1. cbn [Py.bind]. rewrite H2. cbn [Py.bind].
  rewrite H3. cbn [Py.bind]. split.
  - intros m ->. reflexivity.
  - intros Hn. destruct message; try (eexists; split; reflexivity).
    now destruct (Hn s).
Qed.

Lemma parse_ksql_res_error_entry_message_witness :
  _parse_ksql_res (Examples.error_reply "Stream s already exists") CreateError
  = Raise (mk_exn CreateError [VStr "Message: Stream s already exists"]).
Proof.
  eapply (proj1 (parse_ksql_res_error_entry_message
                   (Examples.error_reply "Stream s already exists")
                   _ _ _ (VStr "Stream s already exists") CreateError
                   eq_refl eq_refl eq_refl eq_refl eq_refl)).
  reflexivity.
Defined.

(** X10. A response without a first entry fails in the access [r[0]]:
    [IndexError] for an empty list or an empty text, [KeyError(0)] for a
    dictionary, [TypeError] for [None], a boolean or a number. *)
Theorem parse_ksql_res_unreadable_response (error : exn_class) :
  _parse_ksql_res (VList []) error
    = Raise (mk_exn IndexError [VStr "list index out of range"]) /\
  _parse_ksql_res (VStr "") error
    = Raise (mk_exn IndexError [VStr "string index out of range"]) /\
  (forall entries,
     _parse_ksql_res (VDict entries) error = Raise (mk_exn KeyError [VInt 0])) /\
  (forall r,
     r = VNone \/ (exists b, r = VBool b) \/ (exists n, r = VInt n) \/
     (exists x, r = VFloat x) ->
     _parse_ksql_res r error
       = Raise (mk_exn TypeError
                  [VStr (str1 squote ++ type_name r ++ str1 squote
                         ++ " object is not subscriptable")])).
Proof.
  repeat split.
  intros r [-> | [[b ->] | [[n ->] | [x ->]]]]; reflexivity.
Qed.

Lemma parse_ksql_res_unreadable_response_witness :
  _parse_ksql_res (VInt 404) CreateError
    = Raise (mk_exn TypeError [VStr "'int' object is not subscriptable"]).
Proof.
  apply (proj2 (proj2 (proj2
           (parse_ksql_res_unreadable_response CreateError))) (VInt 404)).
  right. right. left. now exists 404.
Defined.

(* ----------------------------------------------------------------- *)
(** ** More on the retry policy *)

Section RetryShape.

Context {W : Type} `{Env W} {Args : Type}.
Variable exceptions : list exn_class.
Variable delay : Z.
Variable function : Args -> M W value.
Variable args : Args.
Variable w0 : W.

Local Abbreviation outcome := (attempt_outcome function args delay w0).

(** Below any bound, either some attempt is the first not to be caught, or
    all are caught. *)
Lemma first_uncaught_or_all_caught (n : nat) :
  (exists k, (k < n)%nat /\
     (forall i, (i < k)%nat ->
        exists e, outcome i = Raise e /\ isinstance e exceptions = true) /\
     ((exists v, outcome k = Ok v) \/
      (exists e, outcome k = Raise e /\ isinstance e exceptions = false))) \/
  (forall i, (i < n)%nat ->
     exists e, outcome i = Raise e /\ isinstance e exceptions = true).
Proof.
  induction n as [|n IH].
  - right. intros i Hi. lia.
  - destruct IH as [(k & Hk & Hall & Hend) | Hall].
    + left. exists k. split; [lia | now split].
    + destruct (outcome n) as [v|e] eqn:E.
      * left. exists n. split; [lia|]. split; [exact Hall|]. left. now exists v.
      * destruct (isinstance e exceptions) eqn:Ei.
        -- right. intros i Hi. destruct (Nat.eq_dec i n) as [-> | Hne].
           ++ now exists e.
           ++ apply Hall. lia.
        -- left. exists n. split; [lia|]. split; [exact Hall|].
           right. now exists e.
Qed.

End RetryShape.



Lemma attempts_trace_succ (delay : Z) (c : nat) :
  attempts_trace delay (S c)
    = (attempts_trace delay c
       ++ (if (0 <? Z.of_nat c) then [Paused delay] else []) ++ [Invoked])%list.
Proof.
  destruct c as [|c]; [reflexivity|].
  replace (0 <? Z.of_nat (S c)) with true by (symmetry; apply Z.ltb_lt; lia).
  reflexivity.
Qed.

Lemma inner_loop_trace {W : Type} `{Env W} {Args : Type}
  (exceptions : list exn_class) (delay : Z)
  (function : Args -> M W value) (args : Args) :
  0 <= delay ->
  forall (m c : nat) (fe : option exn) (w : W),
  exists n,
    (c <= n <= c + m)%nat /\ ((1 <= m)%nat -> (c + 1 <= n)%nat) /\
    snd (snd (inner_loop exceptions delay (traced function) args
                (map Z.of_nat (seq c m)) fe (w, attempts_trace delay c)))
      = attempts_trace delay n.
Proof.
  intros Hd. induction m as [|m IH]; intros c fe w.
  - exists c. split; [lia|]. split; [lia|].
    cbn [seq map inner_loop]. now destruct fe.
  - cbn [seq map inner_loop]. unfold mbind.
    assert (Hs : (if 0 <? Z.of_nat c then time_sleep delay else ret tt)
                   (w, attempts_trace delay c)
                 = (Ok tt,
                    ((if 0 <? Z.of_nat c then elapse delay w else w),
                     (attempts_trace delay c
                      ++ (if 0 <? Z.of_nat c then [Paused delay] else []))%list))).
    { destruct (0 <? Z.of_nat c).
      - unfold time_sleep.
        replace (delay <? 0) with false by (symmetry; apply Z.ltb_ge; lia).
        reflexivity.
      - unfold ret. now rewrite app_nil_r. }
    rewrite Hs. unfold traced. cbn [fst snd].
    destruct (function args (if 0 <? Z.of_nat c then elapse delay w else w))
      as [[v|e] w1].
    + exists (S c). split; [lia|]. split; [lia|]. cbn [snd].
      now rewrite attempts_trace_succ, app_assoc.
    + rewrite <- app_assoc, <- attempts_trace_succ.
      destruct (isinstance e exceptions).
      * destruct (IH (S c) (Some e) w1) as (n & Hn & _ & Ht).
        exists n. split; [lia|]. split; [lia|]. exact Ht.
      * exists (S c). split; [lia|]. split; [lia|]. reflexivity.
Qed.

(** X12. The wrapper never pauses before the first attempt nor after the
    last: its trace is an invocation, then a pause of [delay] and an
    invocation for each further attempt, with at most [max_retries]
    invocations, and at least one when the bound is at least one. *)
Theorem retry_pauses_between_attempts
  {W : Type} `{Env W} {Args : Type}
  (exceptions : list exn_class) (delay max_retries : Z)
  (function : Args -> M W value) (args : Args) (w : W) :
  0 <= delay ->
  exists n,
    Z.of_nat n <= Z.max 0 max_retries /\
    (1 <= max_retries -> (1 <= n)%nat) /\
    snd (snd (retry exceptions (Some delay) (Some max_retries)
                    (traced function) args (w, [])))
      = attempts_trace delay n.
Proof.
  intros Hd. unfold retry, range. cbn [or_default].
  destruct (inner_loop_trace exceptions delay function args Hd
              (Z.to_nat max_retries) 0 None w) as (n & Hn & H1 & Ht).
  exists n. split; [lia|]. split; [intros Hm; apply H1; lia|]. exact Ht.
Qed.

Lemma retry_pauses_between_attempts_witness :
  let w := Examples.script
             [Scripted.timed_out; Scripted.Responds (Examples.document 200 (VList []))] in
  exists n,
    Z.of_nat n <= Z.max 0 3 /\
    (1 <= 3 -> (1 <= n)%nat) /\
    snd (snd (retry [Timeout] (Some 2) (Some 3)
                    (traced Examples.probe) tt (w, [])))
      = attempts_trace 2 n.
Proof.
  intros w.
  apply (retry_pauses_between_attempts [Timeout] 2 3 Examples.probe tt w). lia.
Defined.



(* ----------------------------------------------------------------- *)
(** ** The convenience methods *)

Lemma requests_sent_snoc_sent (w w' : Scripted.world) (req : Request) :
  Scripted.log w' = (Scripted.log w ++ [Scripted.Sent req])%list ->
  Scripted.requests_sent w' = S (Scripted.requests_sent w) /\
  Scripted.pauses w' = Scripted.pauses w.
Proof.
  intros E. unfold Scripted.requests_sent, Scripted.pauses. rewrite E.
  rewrite filter_app, flat_map_app, length_app. cbn. split; [lia|].
  apply app_nil_r.
Qed.

Lemma ksql_quiet (s : self) (ksql_string : string)
  (streams_properties : option value) (w : Scripted.world) :
  quiet_step w (snd (ksql s ksql_string streams_properties w)).
Proof.
  unfold quiet_step, ksql, _request, mbind, lift, ret, throw.
  destruct (_validate_sql_string (or_default (Some ksql_string) ""));
    [|now left].
  cbn [requests_request Scripted.world_Env]. unfold Scripted.send.
  right. eexists.
  destruct (Scripted.pending w) as [|[r|e] rest]; cbn [snd fst].
  - reflexivity.
  - destruct (status_code r =? 200); [destruct (json r)|]; reflexivity.
  - reflexivity.
Qed.

Lemma create_quiet (build : list (string * value) -> result string)
  (s : self) (table_type table_name columns_type topic : value)
  (value_format : option value) (w : Scripted.world) :
  quiet_step w (snd (SimplifiedAPI._create build s table_type table_name
                       columns_type topic value_format w)).
Proof.
  unfold SimplifiedAPI._create, mbind, lift.
  destruct (build _) as [statement|e]; [|now left].
  pose proof (ksql_quiet s statement None w) as Hq.
  destruct (ksql s statement None w) as [[r|e] w1]; exact Hq.
Qed.

Lemma create_as_wrapped_quiet (build : list (string * value) -> result string)
  (sa : self * SimplifiedAPI.create_as_args) (w : Scripted.world) :
  quiet_step w (snd (SimplifiedAPI._create_as__wrapped__ build sa w)).
Proof.
  destruct sa as [s a].
  unfold SimplifiedAPI._create_as__wrapped__, mbind, lift.
  destruct (keywords _ _ _) as [arguments|e]; [|now left].
  destruct (build arguments) as [statement|e]; [|now left].
  pose proof (ksql_quiet s statement None w) as Hq.
  destruct (ksql s statement None w) as [[r|e] w1]; exact Hq.
Qed.

Lemma quiet_step_counts (w w' : Scripted.world) :
  quiet_step w w' ->
  (Scripted.requests_sent w' <= S (Scripted.requests_sent w))%nat /\
  Scripted.pauses w' = Scripted.pauses w.
Proof.
  intros [E | [req E]].
  - unfold Scripted.requests_sent, Scripted.pauses. rewrite E. split; [lia | reflexivity].
  - destruct (requests_sent_snoc_sent _ _ _ E) as [-> ->]. split; [lia | reflexivity].
Qed.

(** X14. [create_stream] and [create_table] send at most one request and
    never pause, whatever the builder returns and the server replies. *)
Theorem create_sends_at_most_one_request
  (build : list (string * value) -> result string)
  (s : self) (table_name columns_type topic : value)
  (stream_format : option value) (table_format : value)
  (w : Scripted.world) :
  let ws := snd (SimplifiedAPI.create_stream build s table_name columns_type
                   topic stream_format w) in
  let wt := snd (SimplifiedAPI.create_table build s table_name columns_type
                   topic table_format w) in
  ((Scripted.requests_sent ws <= S (Scripted.requests_sent w))%nat /\
   Scripted.pauses ws = Scripted.pauses w) /\
  ((Scripted.requests_sent wt <= S (Scripted.requests_sent w))%nat /\
   Scripted.pauses wt = Scripted.pauses w).
Proof.
  split; apply quiet_step_counts; apply create_quiet.
Qed.

Lemma inner_loop_traffic {Args : Type}
  (exceptions : list exn_class) (delay : Z)
  (function : Args -> M Scripted.world value) (args : Args) :
  0 <= delay ->
  (forall w, quiet_step w (snd (function args w))) ->
  forall (counters : list Z) (fe : option exn) (w : Scripted.world),
    let w' := snd (inner_loop exceptions delay function args counters fe w) in
    exists p,
      (p <= List.length (filter (fun c => (0 <? c)%Z) counters))%nat /\
      Scripted.pauses w' = (Scripted.pauses w ++ repeat delay p)%list /\
      (Scripted.requests_sent w'
       <= Scripted.requests_sent w + List.length counters)%nat.
Proof.
  intros Hd Hq. induction counters as [|c rest IH]; intros fe w.
  - exists O. cbn [inner_loop]. destruct fe; cbn; rewrite app_nil_r; repeat split; lia.
  - cbn [inner_loop]. unfold mbind. cbn [filter List.length].
    destruct (0 <? c) eqn:Ec.
    + unfold time_sleep.
      replace (delay <? 0) with false by (symmetry; apply Z.ltb_ge; lia).
      set (w1 := elapse delay w).
      assert (Hp : Scripted.pauses w1 = (Scripted.pauses w ++ [delay])%list).
      { unfold w1, Scripted.pauses. cbn. rewrite flat_map_app. reflexivity. }
      assert (Hs : Scripted.requests_sent w1 = Scripted.requests_sent w).
      { unfold w1, Scripted.requests_sent. cbn. rewrite filter_app, length_app.
        cbn. lia. }
      pose proof (quiet_step_counts _ _ (Hq w1)) as [Hr Hpz].
      destruct (function args w1) as [[v|e] w2]; cbn [snd] in *.
      * exists 1%nat. cbn [List.length repeat]. rewrite Hpz, Hp. repeat split; lia.
      * destruct (isinstance e exceptions).
        -- destruct (IH (Some e) w2) as (p & Hp1 & Hp2 & Hp3).
           exists (S p). cbn [List.length]. split; [lia|]. split.
           ++ rewrite Hp2, Hpz, Hp, <- app_assoc. reflexivity.
           ++ lia.
        -- exists 1%nat. cbn [snd List.length repeat]. rewrite Hpz, Hp.
           repeat split; lia.
    + unfold ret.
      pose proof (quiet_step_counts _ _ (Hq w)) as [Hr Hpz].
      destruct (function args w) as [[v|e] w2]; cbn [snd] in *.
      * exists O. cbn [repeat]. rewrite Hpz, app_nil_r. repeat split; lia.
      * destruct (isinstance e exceptions).
        -- destruct (IH (Some e) w2) as (p & Hp1 & Hp2 & Hp3).
           exists p. split; [lia|]. split; [now rewrite Hp2, Hpz | lia].
        -- exists O. cbn [snd repeat]. rewrite Hpz, app_nil_r. repeat split; lia.
Qed.

(** X15. [create_stream_as] sends at most five requests and pauses at
    most four times, one second each time, whatever the builder returns
    and the server replies. *)
Theorem create_stream_as_traffic_bound
  (build : list (string * value) -> result string)
  (s : self) (table_name select_columns src_table : value)
  (kafka_topic value_format conditions partition_by : option value)
  (kwargs : list (string * value)) (w : Scripted.world) :
  let w' := snd (SimplifiedAPI.create_stream_as build s table_name
                   select_columns src_table kafka_topic value_format
                   conditions partition_by kwargs w) in
  exists p,
    (p <= 4)%nat /\
    Scripted.pauses w' = (Scripted.pauses w ++ repeat 1 p)%list /\
    (Scripted.requests_sent w' <= Scripted.requests_sent w + 5)%nat.
Proof.
  unfold SimplifiedAPI.create_stream_as, mbind, lift.
  destruct (keywords _ _ _) as [arguments|e].
  2:{ exists O. cbn [snd repeat]. rewrite app_nil_r. repeat split; lia. }
  unfold SimplifiedAPI._create_as, retry. cbn [or_default].
  apply (inner_loop_traffic [Timeout; CreateError] 1
           (SimplifiedAPI._create_as__wrapped__ build) _ ltac:(lia)
           (fun w1 => create_as_wrapped_quiet build _ w1)
           (range 5) None w).
Qed.

(** X16. The decoration of [_create_as] shows only on [Timeout] and
    [CreateError]: when the first attempt returns, or raises an exception
    of any other class (a [ValueError] for a status other than 200, a
    [KeyError] for a reply of another shape), [_create_as] does what the
    undecorated function does, with no second attempt. *)
Theorem create_as_passes_first_outcome {W : Type} `{Env W}
  (build : list (string * value) -> result string)
  (sa : self * SimplifiedAPI.create_as_args) (w w' : W) (r : result value) :
  SimplifiedAPI._create_as__wrapped__ build sa w = (r, w') ->
  (forall e, r = Raise e -> isinstance e [Timeout; CreateError] = false) ->
  SimplifiedAPI._create_as build sa w = (r, w').
Proof.
  intros Hb Hr. unfold SimplifiedAPI._create_as, retry. cbn [or_default].
  change (range 5) with [0; 1; 2; 3; 4].
  cbn [inner_loop]. unfold mbind. cbn [Z.ltb Z.compare ret].
  rewrite Hb. destruct r as [v|e]; [reflexivity|].
  now rewrite (Hr e eq_refl).
Qed.

Lemma create_as_passes_first_outcome_witness :
  let bad := Examples.unavailable in
  let w := Examples.script [Scripted.Responds bad; Scripted.timed_out] in
  let sa := (Examples.client,
             {| SimplifiedAPI.table_type := VStr "stream";
                SimplifiedAPI.table_name := VStr "s";
                SimplifiedAPI.select_columns := VList [VStr "*"];
                SimplifiedAPI.src_table := VStr "t";
                SimplifiedAPI.kafka_topic := None;
                SimplifiedAPI.value_format := None;
                SimplifiedAPI.conditions := None;
                SimplifiedAPI.partition_by := None;
                SimplifiedAPI.kwargs := [] |}) in
  SimplifiedAPI._create_as Examples.build sa w
    = (fst (SimplifiedAPI._create_as__wrapped__ Examples.build sa w),
       snd (SimplifiedAPI._create_as__wrapped__ Examples.build sa w)).
Proof.
  intros bad w sa.
  apply (create_as_passes_first_outcome Examples.build sa w).
  - apply surjective_pairing.
  - intros e E. vm_compute in E. injection E as <-. reflexivity.
Defined.

(** X17. [_create] sends nothing when it has no statement to send: an
    exception of the builder, or [InvalidQueryError] for an empty
    statement, is raised with the world as it was. *)
Theorem create_sends_nothing_without_statement {W : Type} `{Env W}
  (build : list (string * value) -> result string)
  (s : self) (table_type table_name columns_type topic : value)
  (value_format : option value) (w : W) :
  let kwargs :=
    [("sql_type", VStr "create"); ("table_type", table_type);
     ("table_name", table_name); ("columns_type", columns_type);
     ("topic", topic);
     ("value_format", or_default value_format (VStr "JSON"))] in
  (forall e,
     build kwargs = Raise e ->
     SimplifiedAPI._create build s table_type table_name columns_type topic
                           value_format w = (Raise e, w)) /\
  (build kwargs = Ok "" ->
   SimplifiedAPI._create build s table_type table_name columns_type topic
                         value_format w
     = (Raise (mk_exn InvalidQueryError [VStr ""]), w)).
Proof.
  intros kwargs. split.
  - intros e Hb. unfold SimplifiedAPI._create, mbind, lift.
    fold kwargs. now rewrite Hb.
  - intros Hb. unfold SimplifiedAPI._create, mbind, lift.
    fold kwargs. now rewrite Hb.
Qed.

Lemma create_sends_nothing_without_statement_witness :
  let w := Examples.script [Scripted.timed_out] in
  SimplifiedAPI._create (fun _ => Ok "") Examples.client
    (VStr "stream") (VStr "s") (VList []) (VStr "topic") None w
  = (Raise (mk_exn InvalidQueryError [VStr ""]), w).
Proof.
  intros w.
  apply (proj2 (create_sends_nothing_without_statement (fun _ => Ok "")
                  Examples.client (VStr "stream") (VStr "s") (VList [])
                  (VStr "topic") None w)).
  reflexivity.
Defined.

(** What [ksql] makes of the reply to its request. *)
Lemma ksql_on_reply {W : Type} `{Env W}
  (s : self) (statement validated : string) (w w' : W)
  (reply : result Response) :
  _validate_sql_string statement = Ok validated ->
  requests_request (statement_request s validated) w = (reply, w') ->
  ksql s statement None w
    = (match reply with
       | Ok r =>
           if status_code r =? 200 then Requests.json r
           else Raise (mk_exn ValueError
                         [VStr ("Status Code: " ++ str_of_Z (status_code r)
                                ++ "." ++ str1 newline ++ "Message: "
                                ++ repr_bytes (content r))])
       | Raise e => Raise e
       end, w').
Proof.
  intros Hv Hr. unfold ksql, _request, mbind, lift, ret, throw.
  cbn [or_default]. rewrite Hv.
  change (String.eqb "ksql" "query") with false. cbv iota.
  change ("/" ++ "ksql") with "/ksql".
  fold (statement_request s validated). rewrite Hr.
  destruct reply as [r|e]; [|reflexivity].
  destruct (status_code r =? 200); [|reflexivity].
  now destruct (Requests.json r).
Qed.

(** X18. When the request of [create_stream] is answered with status 200,
    the outcome of [create_stream] is the verdict of the interpreter on
    the decoded body (or the exception of the decoding). *)
Theorem create_stream_interprets_reply {W : Type} `{Env W}
  (build : list (string * value) -> result string)
  (s : self) (table_name columns_type topic : value)
  (value_format : option value) (statement validated : string)
  (r : Response) (w w' : W) :
  build [("sql_type", VStr "create"); ("table_type", VStr "stream");
         ("table_name", table_name); ("columns_type", columns_type);
         ("topic", topic);
         ("value_format", or_default value_format (VStr "JSON"))]
    = Ok statement ->
  _validate_sql_string statement = Ok validated ->
  requests_request (statement_request s validated) w = (Ok r, w') ->
  status_code r = 200 ->
  SimplifiedAPI.create_stream build s table_name columns_type topic
                              value_format w
    = ((let? reply := Requests.json r in _parse_ksql_res reply CreateError),
       w').
Proof.
  intros Hb Hv Hr Hs.
  unfold SimplifiedAPI.create_stream, SimplifiedAPI._create, mbind, lift.
  cbn [or_default]. rewrite Hb.
  rewrite (ksql_on_reply s statement validated w w' (Ok r) Hv Hr).
  rewrite Hs. cbn [Z.eqb Pos.eqb].
  now destruct (Requests.json r).
Qed.

Lemma create_stream_interprets_reply_witness :
  let ok := Examples.document 200
              (Examples.status_reply "SUCCESS" "Stream created") in
  SimplifiedAPI.create_stream Examples.build Examples.client
    (VStr "s") (VList []) (VStr "topic") None
    (Examples.script [Scripted.Responds ok])
  = (Ok (VBool true),
     {| Scripted.pending := [];
        Scripted.log := [Scripted.Sent Examples.ksql_request] |}).
Proof.
  intros ok.
  exact (create_stream_interprets_reply Examples.build Examples.client
           (VStr "s") (VList []) (VStr "topic") None
           "CREATE STREAM s AS SELECT * FROM t"
           "CREATE STREAM s AS SELECT * FROM t;" ok
           (Examples.script [Scripted.Responds ok])
           {| Scripted.pending := [];
              Scripted.log := [Scripted.Sent Examples.ksql_request] |}
           eq_refl eq_refl eq_refl eq_refl).
Defined.

(** Keyword arguments that repeat none of the keywords written out are
    added to them. *)
Lemma keywords_fresh (callee : string) (named kwargs : list (string * value)) :
  (forall k, In k (map fst kwargs) -> ~ In k (map fst named)) ->
  keywords callee named kwargs = Ok (named ++ kwargs)%list.
Proof.
  intros Hf. unfold keywords.
  destruct (find _ kwargs) as [[k x]|] eqn:E; [|reflexivity].
  apply find_some in E. destruct E as [Hin Hex].
  apply existsb_exists in Hex. destruct Hex as (k' & Hk' & Heq).
  apply String.eqb_eq in Heq. subst k'.
  destruct (Hf k); [|exact Hk'].
  apply in_map_iff. now exists (k, x).
Qed.

(** The undecorated create-as against the scripted server. *)
Lemma create_as_wrapped_scripted
  (build : list (string * value) -> result string)
  (s : self) (a : SimplifiedAPI.create_as_args)
  (statement validated : string)
  (reply : Scripted.reply) (rest : list Scripted.reply)
  (l : list Scripted.event) :
  extra_keywords (SimplifiedAPI.kwargs a) ->
  build ([("sql_type", VStr "create_as");
          ("table_type", SimplifiedAPI.table_type a);
          ("table_name", SimplifiedAPI.table_name a);
          ("select_columns", SimplifiedAPI.select_columns a);
          ("src_table", SimplifiedAPI.src_table a);
          ("kafka_topic", or_default (SimplifiedAPI.kafka_topic a) VNone);
          ("value_format",
           or_default (SimplifiedAPI.value_format a) (VStr "JSON"));
          ("conditions", or_default (SimplifiedAPI.conditions a) (VList []));
          ("partition_by", or_default (SimplifiedAPI.partition_by a) VNone)]
         ++ SimplifiedAPI.kwargs a)%list = Ok statement ->
  _validate_sql_string statement = Ok validated ->
  SimplifiedAPI._create_as__wrapped__ build (s, a)
    {| Scripted.pending := reply :: rest; Scripted.log := l |}
  = (match reply with
     | Scripted.Fails e => Raise e
     | Scripted.Responds r =>
         let? body :=
           (if status_code r =? 200 then Requests.json r
            else Raise (mk_exn ValueError
                          [VStr ("Status Code: " ++ str_of_Z (status_code r)
                                 ++ "." ++ str1 newline ++ "Message: "
                                 ++ repr_bytes (content r))])) in
         _parse_ksql_res body CreateError
     end,
     {| Scripted.pending := rest;
        Scripted.log :=
          (l ++ [Scripted.Sent (statement_request s validated)])%list |}).
Proof.
  intros Hk Hb Hv.
  unfold SimplifiedAPI._create_as__wrapped__, mbind, lift.
  rewrite keywords_fresh by exact Hk. rewrite Hb.
  rewrite (ksql_on_reply s statement validated
             {| Scripted.pending := reply :: rest; Scripted.log := l |}
             {| Scripted.pending := rest;
                Scripted.log :=
                  (l ++ [Scripted.Sent (statement_request s validated)])%list |}
             (match reply with
              | Scripted.Fails e => Raise e
              | Scripted.Responds r => Ok r
              end) Hv).
  - destruct reply as [r|e]; [|reflexivity].
    destruct (status_code r =? 200); [|reflexivity].
    now destruct (Requests.json r).
  - now destruct reply.
Qed.

Section CreateAsRuns.

Variable build : list (string * value) -> result string.
Variable s : self.
Variable a : SimplifiedAPI.create_as_args.
Variables statement validated : string.
Hypothesis fresh : extra_keywords (SimplifiedAPI.kwargs a).
Hypothesis built :
  build ([("sql_type", VStr "create_as");
          ("table_type", SimplifiedAPI.table_type a);
          ("table_name", SimplifiedAPI.table_name a);
          ("select_columns", SimplifiedAPI.select_columns a);
          ("src_table", SimplifiedAPI.src_table a);
          ("kafka_topic", or_default (SimplifiedAPI.kafka_topic a) VNone);
          ("value_format",
           or_default (SimplifiedAPI.value_format a) (VStr "JSON"));
          ("conditions", or_default (SimplifiedAPI.conditions a) (VList []));
          ("partition_by", or_default (SimplifiedAPI.partition_by a) VNone)]
         ++ SimplifiedAPI.kwargs a)%list = Ok statement.
Hypothesis valid : _validate_sql_string statement = Ok validated.
Variable r : Response.
Variable v : value.
Hypothesis answered : status_code r = 200.
Hypothesis decoded :
  (let? reply := Requests.json r in _parse_ksql_res reply CreateError) = Ok v.
Variable rest : list Scripted.reply.

Local Abbreviation sent := (Scripted.Sent (statement_request s validated)).

(** Attempts after the first: each starts with a pause of one second. *)
Lemma create_as_loop_later :
  forall (es : list exn) (counters : list Z) (fe : option exn)
         (l : list Scripted.event),
    Forall (fun e => isinstance e [Timeout; CreateError] = true) es ->
    Forall (fun c => 0 < c) counters ->
    (List.length es < List.length counters)%nat ->
    inner_loop [Timeout; CreateError] 1
      (SimplifiedAPI._create_as__wrapped__ build) (s, a) counters fe
      {| Scripted.pending :=
           (map Scripted.Fails es ++ Scripted.Responds r :: rest)%list;
         Scripted.log := l |}
    = (Ok v,
       {| Scripted.pending := rest;
          Scripted.log :=
            (l ++ List.concat (repeat [Scripted.Slept 1; sent]
                            (S (List.length es))))%list |}).
Proof.
  induction es as [|e es IH]; intros counters fe l Hes Hcs Hlen;
    destruct counters as [|c counters]; cbn [List.length] in Hlen; try lia;
    inversion Hcs as [|? ? Hc Hcs']; subst;
    cbn [inner_loop]; unfold mbind;
    replace (0 <? c) with true by (symmetry; apply Z.ltb_lt; lia);
    unfold time_sleep; cbn [Z.ltb Z.compare elapse Scripted.world_Env
                            Scripted.pending Scripted.log map app].
  - rewrite (create_as_wrapped_scripted build s a statement validated
               _ _ _ fresh built valid).
    rewrite answered. cbn [Z.eqb Pos.eqb]. rewrite decoded.
    cbn [List.length repeat List.concat]. now rewrite <- app_assoc, app_nil_r.
  - rewrite (create_as_wrapped_scripted build s a statement validated
               _ _ _ fresh built valid).
    inversion Hes as [|? ? He Hes']; subst. rewrite He.
    rewrite (IH counters (Some e) _ Hes' Hcs' ltac:(lia)).
    f_equal. f_equal. cbn [List.length repeat List.concat].
    now rewrite <- !app_assoc.
Qed.

Lemma create_as_run (es : list exn) (l : list Scripted.event) :
  Forall (fun e => isinstance e [Timeout; CreateError] = true) es ->
  (List.length es <= 4)%nat ->
  SimplifiedAPI._create_as build (s, a)
    {| Scripted.pending :=
         (map Scripted.Fails es ++ Scripted.Responds r :: rest)%list;
       Scripted.log := l |}
  = (Ok v,
     {| Scripted.pending := rest;
        Scripted.log :=
          (l ++ sent :: List.concat (repeat [Scripted.Slept 1; sent]
                                  (List.length es)))%list |}).
Proof.
  intros Hes Hlen. unfold SimplifiedAPI._create_as, retry. cbn [or_default].
  change (range 5) with (0 :: [1; 2; 3; 4]).
  remember [1; 2; 3; 4] as later eqn:El.
  cbn [inner_loop]. unfold mbind. cbn [Z.ltb Z.compare ret].
  destruct es as [|e es]; cbn [map app].
  - rewrite (create_as_wrapped_scripted build s a statement validated
               _ _ _ fresh built valid).
    rewrite answered. cbn [Z.eqb Pos.eqb]. rewrite decoded. reflexivity.
  - rewrite (create_as_wrapped_scripted build s a statement validated
               _ _ _ fresh built valid).
    pose proof (Forall_inv Hes) as He. pose proof (Forall_inv_tail Hes) as Hes'.
    cbv beta in He. rewrite He.
    rewrite (create_as_loop_later es later (Some e) _ Hes').
    + f_equal. f_equal. now rewrite <- app_assoc.
    + subst later. repeat constructor.
    + subst later. cbn [List.length] in *. lia.
Qed.

End CreateAsRuns.

(** X19. When the extra keyword arguments repeat none of the keywords
    that [create_stream_as] and [_create_as] write out: against a server
    whose first [n <= 4] replies are failures of a retryable class and
    whose next reply is accepted by the interpreter, [create_stream_as]
    returns the interpreter's value after [n + 1] requests, all the same,
    with a pause of one second before each request but the first, and
    leaves the later replies unread. *)
Theorem create_stream_as_succeeds_after_timeouts
  (build : list (string * value) -> result string)
  (s : self) (table_name select_columns src_table : value)
  (kafka_topic value_format conditions partition_by : option value)
  (kwargs : list (string * value)) (statement validated : string)
  (r : Response) (v : value) (es : list exn)
  (rest : list Scripted.reply) (l : list Scripted.event) :
  extra_keywords kwargs ->
  build ([("sql_type", VStr "create_as");
          ("table_type", VStr "stream");
          ("table_name", table_name);
          ("select_columns", select_columns);
          ("src_table", src_table);
          ("kafka_topic", or_default kafka_topic VNone);
          ("value_format", or_default value_format (VStr "JSON"));
          ("conditions", or_default conditions (VList []));
          ("partition_by", or_default partition_by VNone)]
         ++ kwargs)%list = Ok statement ->
  _validate_sql_string statement = Ok validated ->
  status_code r = 200 ->
  (let? reply := Requests.json r in _parse_ksql_res reply CreateError) = Ok v ->
  Forall (fun e => isinstance e [Timeout; CreateError] = true) es ->
  (List.length es <= 4)%nat ->
  SimplifiedAPI.create_stream_as build s table_name select_columns src_table
    kafka_topic value_format conditions partition_by kwargs
    {| Scripted.pending :=
         (map Scripted.Fails es ++ Scripted.Responds r :: rest)%list;
       Scripted.log := l |}
  = (Ok v,
     {| Scripted.pending := rest;
        Scripted.log :=
          (l ++ Scripted.Sent (statement_request s validated)
             :: List.concat
                  (repeat [Scripted.Slept 1;
                           Scripted.Sent (statement_request s validated)]
                     (List.length es)))%list |}).
Proof.
  intros Hk Hb Hv Hs Hd Hes Hlen.
  unfold SimplifiedAPI.create_stream_as, mbind, lift.
  rewrite keywords_fresh.
  2:{ intros k Hin Hn. apply (Hk k Hin). now right. }
  exact (create_as_run build s
           {| SimplifiedAPI.table_type := VStr "stream";
              SimplifiedAPI.table_name := table_name;
              SimplifiedAPI.select_columns := select_columns;
              SimplifiedAPI.src_table := src_table;
              SimplifiedAPI.kafka_topic := Some (or_default kafka_topic VNone);
              SimplifiedAPI.value_format :=
                Some (or_default value_format (VStr "JSON"));
              SimplifiedAPI.conditions :=
                Some (or_default conditions (VList []));
              SimplifiedAPI.partition_by :=
                Some (or_default partition_by VNone);
              SimplifiedAPI.kwargs := kwargs |}
           statement validated Hk Hb Hv r v Hs Hd rest es l Hes Hlen).
Qed.

Lemma create_stream_as_succeeds_after_timeouts_witness :
  let ok := Examples.document 200
              (Examples.status_reply "SUCCESS" "Stream created") in
  let late := mk_exn ReadTimeout [VStr "Read timed out."] in
  SimplifiedAPI.create_stream_as Examples.build Examples.client
    (VStr "s") (VList [VStr "*"]) (VStr "t") None None None None []
    (Examples.script [Scripted.Fails late; Scripted.Responds ok])
  = (Ok (VBool true),
     {| Scripted.pending := [];
        Scripted.log :=
          [Scripted.Sent Examples.ksql_request; Scripted.Slept 1;
           Scripted.Sent Examples.ksql_request] |}).
Proof.
  intros ok late.
  apply (create_stream_as_succeeds_after_timeouts Examples.build
           Examples.client (VStr "s") (VList [VStr "*"]) (VStr "t")
           None None None None []
           "CREATE STREAM s AS SELECT * FROM t"
           "CREATE STREAM s AS SELECT * FROM t;" ok (VBool true) [late] [] []).
  - intros k [].
  - reflexivity.
  - reflexivity.
  - reflexivity.
  - reflexivity.
  - repeat constructor.
  - cbn. lia.
Defined.

(* ----------------------------------------------------------------- *)
(** ** More on the streaming decoder *)

(** Iterating a generator that is already running. *)
Lemma exhaust_running {W : Type} `{Env W} (s : self) (encoding : string)
  (ending : option exn) (w : W) :
  forall (chunks : list (list byte)) (fuel : nat),
    (List.length chunks < fuel)%nat ->
    exhaust fuel s (Running encoding chunks ending) w
      = match chunks with
        | [] =>
            match ending with
            | Some e =>
                if exn_class_eqb (exn_cls e) StopIteration then ([], None, w)
                else ([], Some e, w)
            | None => ([], None, w)
            end
        | chunk :: rest =>
            if bytes_eqb chunk [byte_of_ascii newline]
            then exhaust fuel s (Running encoding rest ending) w
            else
              match (let? text := bytes_decode (W:=W) encoding chunk in
                     json_loads (W:=W) text) with
              | Ok row =>
                  let '(rows, e, w') :=
                    exhaust (pred fuel) s (Running encoding rest ending) w in
                  (row :: rows, e, w')
              | Raise e => ([], Some (leaving_generator e), w)
              end
        end.
Proof.
  induction chunks as [|chunk rest IH]; intros fuel Hf;
    (destruct fuel as [|fuel]; [cbn [List.length] in Hf; lia|]).
  - cbn [exhaust next resume]. destruct ending as [e|]; [|reflexivity].
    rewrite isinstance_StopIteration.
    destruct (exn_class_eqb (exn_cls e) StopIteration) eqn:E.
    + reflexivity.
    + cbn [exn_cls]. now rewrite E.
  - destruct (bytes_eqb chunk [byte_of_ascii newline]) eqn:E.
    + cbn [exhaust next resume]. rewrite E. cbn [negb]. reflexivity.
    + cbn [exhaust next resume pred]. rewrite E. cbn [negb].
      destruct (let? text := bytes_decode (W:=W) encoding chunk in
                json_loads (W:=W) text) as [row|e]; [reflexivity|].
      now rewrite leaving_generator_not_StopIteration.
Qed.

Lemma exhaust_good_chunks {W : Type} `{Env W} (s : self) (encoding : string)
  (w : W) (tail : list (list byte)) (ending : option exn) :
  forall (chunks : list (list byte)) (rows : list value) (fuel : nat),
    map (fun c =>
           let? text := bytes_decode (W:=W) encoding c in
           json_loads (W:=W) text)
        (filter (fun c => negb (bytes_eqb c [byte_of_ascii newline])) chunks)
      = map Ok rows ->
    (List.length (chunks ++ tail) < fuel)%nat ->
    exists fuel',
      (List.length tail < fuel')%nat /\
      exhaust fuel s (Running encoding (chunks ++ tail) ending) w
        = let '(more, e, w') :=
            exhaust fuel' s (Running encoding tail ending) w in
          ((rows ++ more)%list, e, w').
Proof.
  induction chunks as [|chunk rest IH]; intros rows fuel Hm Hf.
  - destruct rows; [|discriminate]. exists fuel. split; [exact Hf|].
    cbn [app]. now destruct (exhaust fuel s (Running encoding tail ending) w)
      as [[more e] w'].
  - cbn [app] in *. rewrite exhaust_running by exact Hf.
    cbn [filter] in Hm. cbn [List.length] in Hf.
    destruct (bytes_eqb chunk [byte_of_ascii newline]) eqn:E; cbn [negb] in Hm.
    + destruct (IH rows fuel Hm ltac:(lia)) as (fuel' & Hf' & ->).
      now exists fuel'.
    + destruct rows as [|row rows]; [discriminate|].
      cbn [map] in Hm. injection Hm as Hrow Hm. rewrite Hrow.
      destruct (IH rows (pred fuel) Hm ltac:(lia)) as (fuel' & Hf' & ->).
      exists fuel'. split; [exact Hf'|].
      now destruct (exhaust fuel' s (Running encoding tail ending) w)
        as [[more e] w'].
Qed.



(** The first [next] of a generator whose request is answered goes on as a
    running generator over the chunks of the response. *)
Lemma exhaust_created {W : Type} `{Env W} (s : self)
  (query_string : string) (encoding : option string) (chunk_size : option Z)
  (streams_properties : option value) (r : Response)
  (chunks : list (list byte)) (ending : option exn) (fuel : nat) (w w' : W) :
  _request s "query" None (Some query_string)
           (Some (or_default streams_properties (VDict []))) w = (Ok r, w') ->
  iter_content r (or_default chunk_size 128) = (chunks, ending) ->
  exhaust fuel s (query s query_string encoding chunk_size streams_properties) w
    = match fuel with
      | O => ([], None, w)
      | S _ =>
          exhaust fuel s
            (Running (or_default encoding "utf-8") chunks ending) w'
      end.
Proof.
  intros Hr Hc. destruct fuel as [|fuel]; [reflexivity|].
  unfold query. cbn [exhaust next]. now rewrite Hr, Hc.
Qed.

(** X22. When every chunk of the body is a bare newline or decodes to a
    row, iterating the generator to the end yields the rows of the other
    chunks, one for one and in their order, and ends without an
    error. *)
Theorem query_yields_rows_in_order {W : Type} `{Env W} (s : self)
  (query_string : string) (encoding : option string) (chunk_size : option Z)
  (streams_properties : option value) (r : Response)
  (chunks : list (list byte)) (rows : list value) (fuel : nat) (w w' : W) :
  _request s "query" None (Some query_string)
           (Some (or_default streams_properties (VDict []))) w = (Ok r, w') ->
  iter_content r (or_default chunk_size 128) = (chunks, None) ->
  map (fun c =>
         let? text := bytes_decode (W:=W) (or_default encoding "utf-8") c in
         json_loads (W:=W) text)
      (filter (fun c => negb (bytes_eqb c [byte_of_ascii newline])) chunks)
    = map Ok rows ->
  (List.length chunks < fuel)%nat ->
  exhaust fuel s (query s query_string encoding chunk_size streams_properties) w
    = (rows, None, w').
Proof.
  intros Hr Hc Hm Hf.
  rewrite (exhaust_created s query_string encoding chunk_size
             streams_properties r chunks None fuel w w' Hr Hc).
  destruct fuel as [|fuel]; [lia|].
  destruct (exhaust_good_chunks s (or_default encoding "utf-8") w' [] None
              chunks rows (S fuel) Hm) as (fuel' & Hf' & E).
  { rewrite app_nil_r. exact Hf. }
  rewrite app_nil_r in E. rewrite E.
  rewrite exhaust_running by exact Hf'. now rewrite app_nil_r.
Qed.

Lemma query_yields_rows_in_order_witness :
  exhaust 5 Examples.client
    (query Examples.client "SELECT * FROM t" None None None)
    (Examples.script
       [Scripted.Responds (Examples.rows 200)])
  = ([VDict [("a", VInt 1)]; VDict [("a", VInt 2)]], None,
     snd (_request Examples.client "query" None (Some "SELECT * FROM t")
            (Some (VDict []))
            (Examples.script
               [Scripted.Responds (Examples.rows 200)]))).
Proof.
  apply (query_yields_rows_in_order Examples.client "SELECT * FROM t"
           None None None (Examples.rows 200)
           (map list_byte_of_string Examples.row_chunks)).
  - reflexivity.
  - reflexivity.
  - vm_compute. reflexivity.
  - cbn. lia.
Defined.

(** X23. The first chunk that is not a newline and does not decode ends
    the iteration: the rows before it have been yielded, the exception of
    the decoding or of the parsing ends the iteration (as a [RuntimeError]
    if it is a [StopIteration], since it leaves a generator), and the
    chunks after it are never read, whatever they hold. *)
Theorem query_stops_at_first_bad_chunk {W : Type} `{Env W} (s : self)
  (query_string : string) (encoding : option string) (chunk_size : option Z)
  (streams_properties : option value) (r : Response)
  (good later : list (list byte)) (bad : list byte) (ending : option exn)
  (rows : list value) (e : exn) (fuel : nat) (w w' : W) :
  _request s "query" None (Some query_string)
           (Some (or_default streams_properties (VDict []))) w = (Ok r, w') ->
  iter_content r (or_default chunk_size 128)
    = ((good ++ bad :: later)%list, ending) ->
  map (fun c =>
         let? text := bytes_decode (W:=W) (or_default encoding "utf-8") c in
         json_loads (W:=W) text)
      (filter (fun c => negb (bytes_eqb c [byte_of_ascii newline])) good)
    = map Ok rows ->
  bad <> [byte_of_ascii newline] ->
  (let? text := bytes_decode (W:=W) (or_default encoding "utf-8") bad in
   json_loads (W:=W) text) = Raise e ->
  (List.length (good ++ bad :: later) < fuel)%nat ->
  exhaust fuel s (query s query_string encoding chunk_size streams_properties) w
    = (rows, Some (leaving_generator e), w').
Proof.
  intros Hr Hc Hm Hb He Hf.
  rewrite (exhaust_created s query_string encoding chunk_size
             streams_properties r _ ending fuel w w' Hr Hc).
  destruct fuel as [|fuel]; [lia|].
  destruct (exhaust_good_chunks s (or_default encoding "utf-8") w'
              (bad :: later) ending good rows (S fuel) Hm Hf)
    as (fuel' & Hf' & ->).
  rewrite exhaust_running by exact Hf'.
  destruct (bytes_eqb bad [byte_of_ascii newline]) eqn:E.
  { now apply bytes_eqb_eq in E. }
  rewrite He. now rewrite app_nil_r.
Qed.

Lemma query_stops_at_first_bad_chunk_witness :
  let torn := "{" ++ Examples.quoted "a" ++ ":" in
  let body := [Examples.row_chunk "1"; torn; "2}"; Examples.row_chunk "3"] in
  let r := Scripted.streaming 200 body (Json.error "Extra data") in
  let w := Examples.script [Scripted.Responds r] in
  exhaust 5 Examples.client
    (query Examples.client "SELECT * FROM t" None None None) w
  = ([VDict [("a", VInt 1)]],
     Some (mk_exn JSONDecodeError [VStr "Expecting value"]),
     snd (_request Examples.client "query" None (Some "SELECT * FROM t")
            (Some (VDict [])) w)).
Proof.
  intros torn body r w.
  refine (query_stops_at_first_bad_chunk Examples.client "SELECT * FROM t"
            None None None r
            [list_byte_of_string (Examples.row_chunk "1")]
            (map list_byte_of_string ["2}"; Examples.row_chunk "3"])
            (list_byte_of_string torn) None
            [VDict [("a", VInt 1)]]
            (mk_exn JSONDecodeError [VStr "Expecting value"]) 5 w
            (snd (_request Examples.client "query" None
                    (Some "SELECT * FROM t") (Some (VDict [])) w))
            _ _ _ _ _ _).
  - reflexivity.
  - reflexivity.
  - vm_compute. reflexivity.
  - discriminate.
  - vm_compute. reflexivity.
  - cbn. lia.
Defined.

(** X24. [query] does not look at the status code: two responses that
    hand out the same chunks give the same rows and the same ending,
    whatever their status codes and buffered bodies are. *)
Theorem query_ignores_status_code (s : self)
  (query_string : string) (encoding : option string) (chunk_size : option Z)
  (streams_properties : option value) (r r' : Response)
  (rest : list Scripted.reply) (l : list Scripted.event) (fuel : nat) :
  iter_content r (or_default chunk_size 128)
    = iter_content r' (or_default chunk_size 128) ->
  fst (exhaust fuel s
         (query s query_string encoding chunk_size streams_properties)
         {| Scripted.pending := Scripted.Responds r :: rest;
            Scripted.log := l |})
  = fst (exhaust fuel s
           (query s query_string encoding chunk_size streams_properties)
           {| Scripted.pending := Scripted.Responds r' :: rest;
              Scripted.log := l |}).
Proof.
  intros Hc. destruct fuel as [|fuel]; [reflexivity|].
  unfold query. cbn [exhaust next].
  unfold _request, mbind, lift, ret.
  destruct (_validate_sql_string (or_default (Some query_string) ""))
    as [validated|e].
  - cbn [requests_request Scripted.world_Env]. unfold Scripted.send.
    cbn [Scripted.pending Scripted.log]. now rewrite Hc.
  - now rewrite leaving_generator_not_StopIteration.
Qed.

Lemma query_ignores_status_code_witness :
  let ok := Examples.rows 200 in
  let ko := Examples.rows 500 in
  fst (exhaust 5 Examples.client
         (query Examples.client "SELECT * FROM t" None None None)
         {| Scripted.pending := [Scripted.Responds ok]; Scripted.log := [] |})
  = fst (exhaust 5 Examples.client
           (query Examples.client "SELECT * FROM t" None None None)
           {| Scripted.pending := [Scripted.Responds ko]; Scripted.log := [] |}).
Proof.
  intros ok ko.
  apply (query_ignores_status_code Examples.client "SELECT * FROM t"
           None None None ok ko [] [] 5).
  reflexivity.
Defined.

(* ----------------------------------------------------------------- *)
(** ** Construction *)

(** X25. Construction reads the keyword arguments [max_retries], [delay]
    and [timeout] only: any other keyword is ignored; the URL is kept as
    given; without keywords the settings are 3, 0 and 5; and [get_timout]
    returns the timeout given first. *)
Theorem init_reads_three_settings (url_ : string)
  (kwargs : list (string * value)) (key : string) (x : value) :
  key <> "max_retries" -> key <> "delay" -> key <> "timeout" ->
  SimplifiedAPI.__init__ url_ ((key, x) :: kwargs)
    = SimplifiedAPI.__init__ url_ kwargs /\
  url (SimplifiedAPI.__init__ url_ kwargs) = url_ /\
  SimplifiedAPI.__init__ url_ []
    = {| url := url_; max_retries := VInt 3;
         delay := VInt 0; timeout := VInt 5 |} /\
  get_timout (SimplifiedAPI.__init__ url_ (("timeout", x) :: kwargs)) = x.
Proof.
  intros H1 H2 H3. repeat split.
  unfold SimplifiedAPI.__init__, __init__, kwargs_get. cbn [dict_get].
  apply String.eqb_neq in H1, H2, H3. now rewrite H1, H2, H3.
Qed.

Lemma init_reads_three_settings_witness :
  SimplifiedAPI.__init__ "http://localhost:8088"
    [("retries", VInt 9); ("timeout", VInt 7)]
  = SimplifiedAPI.__init__ "http://localhost:8088" [("timeout", VInt 7)].
Proof.
  apply (init_reads_three_settings "http://localhost:8088"
           [("timeout", VInt 7)] "retries" (VInt 9)); discriminate.
Defined.

